(** * Interview progression state machine: a shallow embedding

    The development follows [backend/app/routes/interview.py] (the chat
    handler, session start and status), [backend/app/services/llm_service.py]
    (extractor, completeness judge, question generator, response evaluator with
    their fallbacks) and [backend/app/models.py] (session and response
    records).

    The handlers are embedded on the rows they load: a session object and
    the schema of its template.  The database itself is outside the
    embedding; a sequence of chat requests continues from the session object
    that the last committing run of the handler left.  The text-generation
    backend is a parameter that answers each service method or fails.

    Text is a [string] of bytes.  The Python string methods used by the
    handler ([lower], [strip], [title], [in], [len]) are embedded on the ASCII
    range, where they act bytewise; bytes above 127 are left untouched and are
    never whitespace, so the embedding speaks about ASCII user text. *)

From Stdlib Require Import ZArith NArith List String Ascii Bool Lia.
From Stdlib Require Import Numbers.DecimalString.
From Stdlib Require Import Floats.SpecFloat.
Import ListNotations.
#[local] Set Warnings "-register-all".
Local Open Scope string_scope.
Local Open Scope list_scope.

(* ================================================================== *)
(** ** Python string methods *)

Module PyStr.

(** [str.isspace] on one ASCII character: tab, line feed, vertical tab, form
    feed, carriage return, the four separators 0x1c-0x1f and the space. *)
Definition isspace (c : ascii) : bool :=
  let n := N_of_ascii c in
  ((9 <=? n) && (n <=? 13) || (28 <=? n) && (n <=? 32))%N.

Definition isupper (c : ascii) : bool :=
  let n := N_of_ascii c in ((65 <=? n) && (n <=? 90))%N.

Definition islower (c : ascii) : bool :=
  let n := N_of_ascii c in ((97 <=? n) && (n <=? 122))%N.

Definition lower_char (c : ascii) : ascii :=
  if isupper c then ascii_of_N (N_of_ascii c + 32) else c.

Definition upper_char (c : ascii) : ascii :=
  if islower c then ascii_of_N (N_of_ascii c - 32) else c.

(** [s.lower()] *)
Fixpoint lower (s : string) : string :=
  match s with
  | EmptyString => EmptyString
  | String c r => String (lower_char c) (lower r)
  end.

Fixpoint lstrip (s : string) : string :=
  match s with
  | EmptyString => EmptyString
  | String c r => if isspace c then lstrip r else s
  end.

Fixpoint rstrip (s : string) : string :=
  match s with
  | EmptyString => EmptyString
  | String c r =>
      match rstrip r with
      | EmptyString => if isspace c then EmptyString else String c EmptyString
      | r' => String c r'
      end
  end.

(** [s.strip()] *)
Definition strip (s : string) : string := rstrip (lstrip s).

(** [sub in s] *)
Fixpoint contains (sub s : string) : bool :=
  prefix sub s ||
  match s with
  | EmptyString => false
  | String _ r => contains sub r
  end.

(** [any(phrase in text for phrase in phrases)] *)
Definition any_in (phrases : list string) (text : string) : bool :=
  existsb (fun phrase => contains phrase text) phrases.

(** [s.replace(a, b)] for one-character [a] and [b]. *)
Fixpoint replace_char (a b : ascii) (s : string) : string :=
  match s with
  | EmptyString => EmptyString
  | String c r => String (if Ascii.eqb c a then b else c) (replace_char a b r)
  end.

(** [s.title()]: a letter that follows a letter is lower-cased, any other
    letter is upper-cased. *)
Fixpoint title_from (prev_cased : bool) (s : string) : string :=
  match s with
  | EmptyString => EmptyString
  | String c r =>
      String (if prev_cased then lower_char c else upper_char c)
             (title_from (isupper c || islower c) r)
  end.

Definition title (s : string) : string := title_from false s.

(** [str(n)] for an integer. *)
Definition str_of_int (n : Z) : string := NilZero.string_of_int (Z.to_int n).

End PyStr.

(* ================================================================== *)
(** ** JSON values as Python objects *)

Module Json.

(** What [json.loads] can return.  A dict is kept as the list of its items in
    insertion order. *)
Inductive json : Type :=
| JNull
| JBool (b : bool)
| JInt (n : Z)
| JFloat (f : spec_float)
| JStr (s : string)
| JArr (l : list json)
| JObj (items : list (string * json)).

Definition Dict : Type := list (string * json).

(** Python truth value of an object, as tested by [if value:]. *)
Definition truthy (v : json) : bool :=
  match v with
  | JNull => false
  | JBool b => b
  | JInt n => negb (n =? 0)%Z
  | JFloat (S754_zero _) => false
  | JFloat _ => true
  | JStr EmptyString => false
  | JStr _ => true
  | JArr [] => false
  | JArr _ => true
  | JObj [] => false
  | JObj _ => true
  end.

(** [d.get(k)] *)
Fixpoint get (k : string) (d : Dict) : option json :=
  match d with
  | [] => None
  | (k', v) :: r => if String.eqb k k' then Some v else get k r
  end.

(** [d.get(k, default)] *)
Definition get_default (k : string) (default : json) (d : Dict) : json :=
  match get k d with
  | Some v => v
  | None => default
  end.

(** Truth value of [d.get(k)], where a missing key gives [None]. *)
Definition truthy_get (k : string) (d : Dict) : bool :=
  match get k d with
  | Some v => truthy v
  | None => false
  end.

(** [d[k] = v]: an existing key keeps its place. *)
Fixpoint set (k : string) (v : json) (d : Dict) : Dict :=
  match d with
  | [] => [(k, v)]
  | (k', v') :: r =>
      if String.eqb k k' then (k, v) :: r else (k', v') :: set k v r
  end.

Section Formatting.

(** [repr] of floats, lists and dicts is not spelled out; it is a parameter of
    the formatting of a value inside an f-string. *)
Variable repr_other : json -> string.

(** [f"{value}"] *)
Definition format_value (v : json) : string :=
  match v with
  | JNull => "None"
  | JBool true => "True"
  | JBool false => "False"
  | JInt n => PyStr.str_of_int n
  | JStr s => s
  | other => repr_other other
  end.

End Formatting.

End Json.

(* ================================================================== *)
(** ** Python floats, for the progress percentage *)

Module PyFloat.

Definition prec : Z := 53.
Definition emax : Z := 1024.

(** [float(n)] for an integer [n] *)
Definition of_int (n : Z) : spec_float := binary_normalize prec emax n 0 false.

(** [a / b] on integers: the correctly rounded quotient; a zero divisor
    raises [ZeroDivisionError] and a quotient beyond the doubles raises
    [OverflowError] (both [None]). *)
Definition truediv (a b : Z) : option spec_float :=
  match a, b with
  | _, Z0 => None
  | Z0, _ => Some (S754_zero (b <? 0)%Z)
  | _, _ =>
      let '(q, e, l) := SFdiv_core_binary prec emax (Z.abs a) 0 (Z.abs b) 0 in
      match binary_round_aux prec emax (xorb (a <? 0)%Z (b <? 0)%Z) q e l with
      | S754_infinity _ => None
      | x => Some x
      end
  end.

(** [x * n] for a float [x] and a small integer [n] *)
Definition mul_int (x : spec_float) (n : Z) : spec_float :=
  SFmul prec emax x (of_int n).

(** The integer nearest to [m * 2^e], ties to the even one. *)
Definition round_half_even (m e : Z) : Z :=
  if (0 <=? e)%Z then (m * 2 ^ e)%Z
  else
    let d := (2 ^ (- e))%Z in
    let q := (m / d)%Z in
    let r2 := (2 * (m mod d))%Z in
    if (r2 <? d)%Z then q
    else if (d <? r2)%Z then (q + 1)%Z
    else if Z.even q then q else (q + 1)%Z.

(** [round(x)] with one argument; it raises on infinities and NaN. *)
Definition round (x : spec_float) : option Z :=
  match x with
  | S754_zero _ => Some 0%Z
  | S754_finite s m e => Some (cond_Zopp s (round_half_even (Zpos m) e))
  | S754_infinity _ => None
  | S754_nan => None
  end.

End PyFloat.

(* ================================================================== *)
(** ** Records of [models.py] *)

Module Models.
Import Json.

(** One entry of a template's [questions_schema]. *)
Record FieldInfo : Type := { prompt : string; type : string }.

Definition Schema : Type := list (string * FieldInfo).

(** One entry of [conversation_history]: [{"sender": ..., "text": ...}]. *)
Record Message : Type := { sender : string; text : string }.

Module InterviewTemplate.
Record t : Type := mk {
  id : Z;
  questions_schema : option Schema;
  is_active : bool
}.
End InterviewTemplate.

Module InterviewSession.
Record t : Type := mk {
  id : Z;
  template_id : Z;
  session_data : option Dict;
  conversation_history : option (list Message);
  current_question_index : Z;
  is_completed : bool;
  awaiting_confirmation : bool;
  extracted_data : option Dict;
  field_scores : json
}.

Definition set_conversation_history (h : list Message) (s : t) : t :=
  mk (id s) (template_id s) (session_data s) (Some h)
     (current_question_index s) (is_completed s) (awaiting_confirmation s)
     (extracted_data s) (field_scores s).

Definition set_is_completed (b : bool) (s : t) : t :=
  mk (id s) (template_id s) (session_data s) (conversation_history s)
     (current_question_index s) b (awaiting_confirmation s)
     (extracted_data s) (field_scores s).

Definition set_session_data (d : Dict) (s : t) : t :=
  mk (id s) (template_id s) (Some d) (conversation_history s)
     (current_question_index s) (is_completed s) (awaiting_confirmation s)
     (extracted_data s) (field_scores s).

Definition set_awaiting_confirmation (b : bool) (s : t) : t :=
  mk (id s) (template_id s) (session_data s) (conversation_history s)
     (current_question_index s) (is_completed s) b
     (extracted_data s) (field_scores s).

Definition set_extracted_data (d : Dict) (s : t) : t :=
  mk (id s) (template_id s) (session_data s) (conversation_history s)
     (current_question_index s) (is_completed s) (awaiting_confirmation s)
     (Some d) (field_scores s).

Definition set_field_scores (j : json) (s : t) : t :=
  mk (id s) (template_id s) (session_data s) (conversation_history s)
     (current_question_index s) (is_completed s) (awaiting_confirmation s)
     (extracted_data s) j.

(** [session.conversation_history] once the handler has replaced [None] by
    the empty list. *)
Definition history (s : t) : list Message :=
  match conversation_history s with
  | Some h => h
  | None => []
  end.
End InterviewSession.

Module ChatResponse.
Record t : Type := mk {
  response : string;
  is_complete : bool;
  awaiting_confirmation : bool;
  extracted_data : option Dict;
  field_scores : option Dict;
  session_data : option Dict
}.
End ChatResponse.

(** Validation of a value passed for a field declared
    [Optional[Dict[str, Any]]]: [None] and dicts pass, anything else is a
    validation error ([None] here). *)
Definition optional_dict (v : json) : option (option Dict) :=
  match v with
  | JNull => Some None
  | JObj d => Some (Some d)
  | _ => None
  end.

End Models.

(* ================================================================== *)
(** ** [llm_service.py] *)

Module LLMService.
Import Json Models.

(** The text-generation backend as each method of the service sees it: the
    parsed content of the reply to the request built from the given arguments,
    or [None] when anything inside the method's [try] block raises (transport
    error, bad status, missing key, unparsable content). *)
Record Backend : Type := {
  extract_reply : list Message -> Schema -> option json;
  judge_reply : Dict -> Schema -> option json;
  question_reply : list Message -> Schema -> json -> json -> option string;
  evaluate_reply : string -> string -> string -> option string
}.

(** [extract_data_from_conversation] *)
Definition extract_data_from_conversation
    (be : Backend) (conversation_history : list Message)
    (questions_schema : Schema) : json :=
  match extract_reply be conversation_history questions_schema with
  | Some content => content
  | None => JObj []
  end.

Definition judge_fallback_suggestions : string :=
  "Unable to evaluate completeness. Please continue the conversation.".

(** The [except] branch of [judge_completeness]: the loop over
    [questions_schema.keys()] filling [field_scores]. *)
Definition judge_fallback_scores (extracted_data : Dict)
    (questions_schema : Schema) : Dict :=
  fold_left
    (fun field_scores field =>
       let field_name := fst field in
       set field_name
           (JInt (if truthy_get field_name extracted_data then 5 else 0))
           field_scores)
    questions_schema [].

Definition judge_fallback (extracted_data : Dict) (questions_schema : Schema)
    : json * json * json :=
  (JObj (judge_fallback_scores extracted_data questions_schema),
   JBool false,
   JStr judge_fallback_suggestions).

(** [judge_completeness]: [None] is the [AttributeError] raised by
    [extracted_data.items()], outside the [try], when the extractor's result
    is not a dict.  A reply that is not a dict raises inside the [try]. *)
Definition judge_completeness (be : Backend) (extracted_data : json)
    (questions_schema : Schema) : option (json * json * json) :=
  match extracted_data with
  | JObj extracted =>
      Some
        match judge_reply be extracted questions_schema with
        | Some (JObj judgment) =>
            (get_default "field_scores" (JObj []) judgment,
             get_default "overall_complete" (JBool false) judgment,
             get_default "suggestions" (JStr "") judgment)
        | _ => judge_fallback extracted questions_schema
        end
  | _ => None
  end.

(** [conversation_history[-6:]] *)
Definition last_six (conversation_history : list Message) : list Message :=
  skipn (List.length conversation_history - 6) conversation_history.

Definition question_fallback : string :=
  "Could you tell me more about your experience?".

(** [generate_next_question]: [None] is the [AttributeError] raised by
    [field_scores.get], outside the [try], in the first round of the loop
    over the schema when [field_scores] is not a dict. *)
Definition generate_next_question (be : Backend)
    (conversation_history : list Message) (questions_schema : Schema)
    (extracted_data : json) (field_scores : json) (suggestions : json)
    : option string :=
  let ask :=
    match question_reply be (last_six conversation_history) questions_schema
                         field_scores suggestions with
    | Some content => PyStr.strip content
    | None => question_fallback
    end in
  match questions_schema, field_scores with
  | [], _ => Some ask
  | _ :: _, JObj _ => Some ask
  | _ :: _, _ => None
  end.

(** [_fallback_evaluation] *)
Definition _fallback_evaluation (answer field_type : string)
    : bool * option string :=
  if String.eqb field_type "yes/no" then
    (existsb (String.eqb (PyStr.lower answer)) ["yes"; "no"],
     Some "Please answer with 'yes' or 'no'.")
  else if Nat.ltb (String.length (PyStr.strip answer)) 10 then
    (false, Some "Please provide a more detailed response.")
  else
    (true, None).

(** [result.split(":", 1)[1]] when [":" in result] *)
Fixpoint after_colon (s : string) : option string :=
  match s with
  | EmptyString => None
  | String c r => if Ascii.eqb c ":" then Some r else after_colon r
  end.

(** [evaluate_response] *)
Definition evaluate_response (be : Backend)
    (question answer field_type : string) : bool * option string :=
  match evaluate_reply be question answer field_type with
  | Some content =>
      let result := PyStr.strip content in
      if prefix "SUFFICIENT" result then (true, None)
      else if prefix "INSUFFICIENT" result then
        (false,
         Some match after_colon result with
              | Some reason => PyStr.strip reason
              | None => "Please provide more detail."
              end)
      else (true, None)
  | None => _fallback_evaluation answer field_type
  end.

End LLMService.

(* ================================================================== *)
(** ** [routes/interview.py] *)

Module Interview.
Import Json Models LLMService.

(** A service method awaited by the handler, with its arguments. *)
Inductive Call : Type :=
| extract_call (conversation_history : list Message)
               (questions_schema : Schema)
| judge_call (extracted_data : json) (questions_schema : Schema)
| generate_call (conversation_history : list Message)
                (questions_schema : Schema)
                (extracted_data field_scores suggestions : json).

Inductive exn : Type := AttributeError | ValidationError.

Inductive HandlerResult : Type :=
| Returned (r : ChatResponse.t)
| Raised (e : exn).

(** What one run of the chat handler leaves behind: the session object as the
    handler last wrote it, whether [db.commit()] was reached, the service
    methods awaited in order, and the response or the exception. *)
Record Outcome : Type := {
  session_after : InterviewSession.t;
  committed : bool;
  calls : list Call;
  result : HandlerResult
}.

(** [start_interview]: [None] is the 404 for a missing or inactive template;
    [new_id] is the key the database gives the new row and [is_completed]
    takes its column default. *)
Definition start_interview (templates : list InterviewTemplate.t)
    (new_id template_id : Z) : option InterviewSession.t :=
  match find (fun t => (InterviewTemplate.id t =? template_id)%Z
                       && InterviewTemplate.is_active t) templates with
  | None => None
  | Some _ =>
      Some (InterviewSession.mk new_id template_id (Some []) (Some []) 0
                                false false (Some []) (JObj []))
  end.

Definition user_message (text : string) : Message :=
  {| sender := "user"; text := text |}.

Definition assistant_message (text : string) : Message :=
  {| sender := "assistant"; text := text |}.

Definition confirm_phrases : list string :=
  ["yes"; "correct"; "looks good"; "that's right"; "confirm"; "approve"].

Definition reject_phrases : list string :=
  ["no"; "incorrect"; "wrong"; "not right"; "reject"; "change"].

Definition ready_phrases : list string :=
  ["ready"; "ok"; "yes"; "start"; "lets start"; "let's start";
   "ok. lets start"; "begin"].

Definition completed_msg : string :=
  "This interview has already been completed.".

Definition confirmed_msg : string :=
  "Perfect! Thank you for confirming. Your interview is now complete.".

Definition continue_msg : string :=
  "I understand. Let's continue our conversation to gather more accurate information. What would you like to clarify or add?".

Definition ready_welcome_msg : string :=
  "Great! I'll be conducting this interview with you. Let's have a natural conversation, and I'll gather the information we need. Tell me, what brings you here today?".

Definition welcome_msg : string :=
  "Hello! Welcome to your interview session. I will ask you questions through a natural conversation. Let me know when you're ready to begin!".

Definition nl : string := String "010" EmptyString.

Definition summary_header : string :=
  ("Thank you for sharing all that information! Let me summarize what I've gathered:"
   ++ nl ++ nl)%string.

Definition summary_footer : string :=
  (nl ++ "Does this look accurate? Please confirm if this is correct, or let me know what needs to be changed.")%string.

Section Handler.

Variable repr_other : json -> string.
Variable be : Backend.

(** One line of the summary. *)
Definition summary_line (field_name : string) (value : json) : string :=
  ("• **" ++ PyStr.title (PyStr.replace_char "_" " " field_name) ++ "**: "
   ++ format_value repr_other value ++ nl)%string.

(** The confirmation message built in the overall-complete branch: the loop
    over [extracted_data.items()] appends to the message. *)
Definition summary_msg (extracted_data : Dict) : string :=
  (fold_left
     (fun confirmation_msg item =>
        if truthy (snd item)
        then confirmation_msg ++ summary_line (fst item) (snd item)
        else confirmation_msg)
     extracted_data summary_header
   ++ summary_footer)%string.

(** [chat_with_session], for a session row that exists and a template whose
    [questions_schema] is a schema. *)
Definition chat_with_session (questions_schema : Schema)
    (session : InterviewSession.t) (message : string) : Outcome :=
  if InterviewSession.is_completed session then
    {| session_after := session; committed := false; calls := [];
       result := Returned (ChatResponse.mk completed_msg true false None None
                             (InterviewSession.session_data session)) |}
  else
    let conversation_history :=
      InterviewSession.history session ++ [user_message message] in
    let session :=
      InterviewSession.set_conversation_history conversation_history session in
    let normalized := PyStr.strip (PyStr.lower message) in
    if InterviewSession.awaiting_confirmation session
       && PyStr.any_in confirm_phrases normalized then
      let session := InterviewSession.set_is_completed true session in
      let session_data :=
        match InterviewSession.extracted_data session with
        | Some ((_ :: _) as extracted) => extracted
        | _ => []
        end in
      let session := InterviewSession.set_session_data session_data session in
      let session :=
        InterviewSession.set_conversation_history
          (conversation_history ++ [assistant_message confirmed_msg]) session in
      {| session_after := session; committed := true; calls := [];
         result := Returned (ChatResponse.mk confirmed_msg true false None None
                               (Some session_data)) |}
    else if InterviewSession.awaiting_confirmation session
            && PyStr.any_in reject_phrases normalized then
      let session := InterviewSession.set_awaiting_confirmation false session in
      let session :=
        InterviewSession.set_conversation_history
          (conversation_history ++ [assistant_message continue_msg]) session in
      {| session_after := session; committed := true; calls := [];
         result := Returned (ChatResponse.mk continue_msg false false None None
                               None) |}
    else if Nat.eqb (List.length conversation_history) 1 then
      let msg :=
        if PyStr.any_in ready_phrases normalized
        then ready_welcome_msg else welcome_msg in
      let session :=
        InterviewSession.set_conversation_history
          (conversation_history ++ [assistant_message msg]) session in
      {| session_after := session; committed := true; calls := [];
         result := Returned (ChatResponse.mk msg false false None None None) |}
    else
      let extractor_history := removelast conversation_history in
      let extracted_data :=
        extract_data_from_conversation be extractor_history questions_schema in
      let call1 := extract_call extractor_history questions_schema in
      let call2 := judge_call extracted_data questions_schema in
      match judge_completeness be extracted_data questions_schema,
            extracted_data with
      | Some (field_scores, overall_complete, suggestions), JObj extracted =>
          let session := InterviewSession.set_extracted_data extracted session in
          let session := InterviewSession.set_field_scores field_scores session in
          if truthy overall_complete then
            let confirmation_msg := summary_msg extracted in
            let session :=
              InterviewSession.set_awaiting_confirmation true session in
            let session :=
              InterviewSession.set_conversation_history
                (conversation_history ++ [assistant_message confirmation_msg])
                session in
            {| session_after := session; committed := true;
               calls := [call1; call2];
               result :=
                 match optional_dict field_scores with
                 | Some scores =>
                     Returned (ChatResponse.mk confirmation_msg false true
                                 (Some extracted) scores None)
                 | None => Raised ValidationError
                 end |}
          else
            let call3 :=
              generate_call conversation_history questions_schema
                            extracted_data field_scores suggestions in
            match generate_next_question be conversation_history
                    questions_schema extracted_data field_scores
                    suggestions with
            | Some next_question =>
                let session :=
                  InterviewSession.set_conversation_history
                    (conversation_history ++ [assistant_message next_question])
                    session in
                {| session_after := session; committed := true;
                   calls := [call1; call2; call3];
                   result :=
                     match optional_dict field_scores with
                     | Some scores =>
                         Returned (ChatResponse.mk next_question false false
                                     (Some extracted) scores None)
                     | None => Raised ValidationError
                     end |}
            | None =>
                {| session_after := session; committed := false;
                   calls := [call1; call2; call3];
                   result := Raised AttributeError |}
            end
      | _, _ =>
          (* [judge_completeness] raised: the extractor's result is no dict *)
          {| session_after := session; committed := false;
             calls := [call1; call2]; result := Raised AttributeError |}
      end.

(** The session the next request continues from: the session object as the
    handler left it when it committed, the session as it was otherwise. *)
Definition stored (session : InterviewSession.t) (o : Outcome)
    : InterviewSession.t :=
  if committed o then session_after o else session.

End Handler.

(** The dict returned by [get_session_status]. *)
Record Status : Type := {
  session_id : Z;
  current_question : Z;
  total_questions : Z;
  is_completed : bool;
  progress_percentage : Z
}.

(** [round((current_question_index / total_questions) * 100)] *)
Definition percentage (current_question_index total_questions : Z)
    : option Z :=
  match PyFloat.truediv current_question_index total_questions with
  | Some ratio => PyFloat.round (PyFloat.mul_int ratio 100)
  | None => None
  end.

(** [get_session_status], for a session row that exists; [None] is an
    exception: the template row is missing, or the float arithmetic raised. *)
Definition get_session_status (templates : list InterviewTemplate.t)
    (session : InterviewSession.t) : option Status :=
  match find (fun t => (InterviewTemplate.id t
                        =? InterviewSession.template_id session)%Z)
             templates with
  | None => None
  | Some template =>
      let total_questions :=
        match InterviewTemplate.questions_schema template with
        | Some ((_ :: _) as schema) => Z.of_nat (List.length schema)
        | _ => 0%Z
        end in
      match (if (0 <? total_questions)%Z
             then percentage (InterviewSession.current_question_index session)
                             total_questions
             else Some 0%Z) with
      | Some progress =>
          Some {| session_id := InterviewSession.id session;
                  current_question :=
                    (InterviewSession.current_question_index session + 1)%Z;
                  total_questions := total_questions;
                  is_completed := InterviewSession.is_completed session;
                  progress_percentage := progress |}
      | None => None
      end
  end.

End Interview.

(* ================================================================== *)
(** ** Sequences of chat requests *)

Module Machine.
Import Json Models LLMService Interview.

(** What varies from one chat request to the next: the backend's behaviour,
    the template's schema as loaded by the request, and the user's text. *)
Record Request : Type := {
  backend : Backend;
  schema : Schema;
  message : string
}.

Section Runs.

Variable repr_other : json -> string.

(** The session after one request. *)
Definition serve (s : InterviewSession.t) (r : Request) : InterviewSession.t :=
  stored s (chat_with_session repr_other (backend r) (schema r) s (message r)).

(** The session after a sequence of requests. *)
Definition replay (s : InterviewSession.t) (requests : list Request)
    : InterviewSession.t :=
  fold_left serve requests s.

(** The sessions that a freshly started session can become. *)
Inductive reachable : InterviewSession.t -> Prop :=
| reachable_start templates new_id template_id s :
    start_interview templates new_id template_id = Some s ->
    reachable s
| reachable_chat s r :
    reachable s ->
    reachable (serve s r).

End Runs.

End Machine.

(* ================================================================== *)
(** ** Shapes of values *)

Module Shape.
Import Json.

(** [isinstance(v, dict)] *)
Definition is_dict (v : json) : bool :=
  match v with
  | JObj _ => true
  | _ => false
  end.

End Shape.

(* ================================================================== *)
(** ** Template generation: [llm_service.py] and [routes/admin.py] *)

Module Generation.
Import Json Models.

(** Accumulator loop of [s.split()]: [word] is the run of non-space
    characters read so far. *)
Fixpoint split_from (word s : string) : list string :=
  match s with
  | EmptyString =>
      match word with
      | EmptyString => []
      | _ => [word]
      end
  | String c r =>
      if PyStr.isspace c then
        match word with
        | EmptyString => split_from EmptyString r
        | _ => word :: split_from EmptyString r
        end
      else split_from (word ++ String c EmptyString)%string r
  end.

(** [s.split()]: the maximal runs of non-space characters. *)
Definition split (s : string) : list string := split_from EmptyString s.

(** [any(word in words for word in keywords)] *)
Definition any_word (keywords words : list string) : bool :=
  existsb (fun word => existsb (String.eqb word) words) keywords.

Definition field (prompt type : string) : json :=
  JObj [("prompt", JStr prompt); ("type", JStr type)].

Definition bug_schema : Dict :=
  [("issue_description",
    field "Please describe the issue you encountered." "story");
   ("steps_taken", field "What steps did you take to resolve it?" "story");
   ("outcome", field "What was the final outcome?" "string")].

Definition document_schema : Dict :=
  [("topic", field "What is the main topic you want to document?" "string");
   ("key_points", field "What are the key points to cover?" "story");
   ("audience", field "Who is the intended audience?" "string")].

Definition generic_schema (goals : string) : Dict :=
  [("main_topic",
    field ("Can you tell me more about " ++ goals ++ "?")%string "story");
   ("key_details", field "What are the most important details?" "story")].

(** [_fallback_schema] *)
Definition _fallback_schema (goals : string) : Dict :=
  let words := split (PyStr.lower goals) in
  if any_word ["bug"; "fix"; "software"; "error"] words then bug_schema
  else if any_word ["document"; "guide"; "process"] words then document_schema
  else generic_schema goals.

(** Reading a dict of [{"prompt": ..., "type": ...}] entries as a schema of
    [FieldInfo]; [None] when an entry has another shape. *)
Definition field_info_of (v : json) : option FieldInfo :=
  match v with
  | JObj [("prompt", JStr p); ("type", JStr t)] =>
      Some {| prompt := p; type := t |}
  | _ => None
  end.

Fixpoint schema_of (d : Dict) : option Schema :=
  match d with
  | [] => Some []
  | (field_name, v) :: r =>
      match field_info_of v, schema_of r with
      | Some info, Some rest => Some ((field_name, info) :: rest)
      | _, _ => None
      end
  end.

(** The keyword arguments given to [InterviewTemplateCreate]. *)
Record InterviewTemplateCreate : Type := {
  name : string;
  description : option string;
  questions_schema : Dict
}.

(** What [generate_template_from_goals] ends with: the 400 for missing goals,
    the 500 of its [except] clause, or the template inserted, whose columns
    other than the key and the time stamps are the given ones. *)
Inductive GenerateResult : Type :=
| BadRequest
| ServerError
| Created (template_data : InterviewTemplateCreate).

(** [goals[:50]] inside the f-string of the name: the slice of a string or of
    a list; the other values cannot be sliced ([None]). *)
Definition slice_50 (repr_other : json -> string) (goals : json)
    : option string :=
  match goals with
  | JStr g => Some (substring 0 50 g)
  | JArr l => Some (format_value repr_other (JArr (firstn 50 l)))
  | _ => None
  end.

Section Generate.

Variable repr_other : json -> string.

(** The backend's parsed reply to the request built from the goals, or
    [None] when anything in the [try] block raises. *)
Variable questions_reply : json -> option json.

(** [generate_questions_from_goals]: [None] is the [AttributeError] that
    [goals.lower()] raises inside the [except] clause when the goals are no
    string. *)
Definition generate_questions_from_goals (goals : json) : option json :=
  match questions_reply goals with
  | Some content => Some content
  | None =>
      match goals with
      | JStr g => Some (JObj (_fallback_schema g))
      | _ => None
      end
  end.

(** [generate_template_from_goals], up to the insertion of the row. *)
Definition generate_template_from_goals (request : Dict) : GenerateResult :=
  let goals := get_default "goals" (JStr EmptyString) request in
  if negb (truthy goals) then BadRequest
  else
    match generate_questions_from_goals goals with
    | None => ServerError
    | Some questions_schema =>
        match slice_50 repr_other goals, questions_schema with
        | Some head, JObj schema =>
            Created
              {| name := ("Generated Template - " ++ head ++ "...")%string;
                 description :=
                   Some ("Auto-generated template based on: "
                         ++ format_value repr_other goals)%string;
                 questions_schema := schema |}
        | _, _ => ServerError
        end
    end.

End Generate.

End Generation.

(* ================================================================== *)
(** ** Template rows: [routes/admin.py] and [routes/interview.py] *)

Module Templates.
Import Models.

(** [get_templates] of [admin.py] and [get_available_templates] of
    [interview.py]: the same query. *)
Definition get_templates (templates : list InterviewTemplate.t)
    : list InterviewTemplate.t :=
  filter InterviewTemplate.is_active templates.

Definition get_available_templates (templates : list InterviewTemplate.t)
    : list InterviewTemplate.t :=
  filter InterviewTemplate.is_active templates.

(** [get_template]: [None] is the 404. *)
Definition get_template (templates : list InterviewTemplate.t)
    (template_id : Z) : option InterviewTemplate.t :=
  find (fun t => (InterviewTemplate.id t =? template_id)%Z) templates.

(** The table after [is_active = False] is written to the first row with the
    given key. *)
Fixpoint deactivate (template_id : Z) (templates : list InterviewTemplate.t)
    : list InterviewTemplate.t :=
  match templates with
  | [] => []
  | t :: rest =>
      if (InterviewTemplate.id t =? template_id)%Z
      then InterviewTemplate.mk (InterviewTemplate.id t)
                                (InterviewTemplate.questions_schema t) false
           :: rest
      else t :: deactivate template_id rest
  end.

(** [delete_template]: [None] is the 404, otherwise the table after the
    commit. *)
Definition delete_template (templates : list InterviewTemplate.t)
    (template_id : Z) : option (list InterviewTemplate.t) :=
  match get_template templates template_id with
  | None => None
  | Some _ => Some (deactivate template_id templates)
  end.

End Templates.

(* ================================================================== *)
(** ** A sample interview *)

Module Sample.
Import Json Models LLMService Interview Machine.

Definition name_schema : Schema :=
  [("name", {| prompt := "What is your name?"; type := "string" |})].

Definition templates : list InterviewTemplate.t :=
  [InterviewTemplate.mk 1 (Some name_schema) true].

Definition availability_schema : Schema :=
  [("available", {| prompt := "Are you available?"; type := "yes/no" |})].

(** No float, list or dict is formatted in the sample, so any function will
    do for their [repr]. *)
Definition repr_unused (v : json) : string := EmptyString.

(** A backend that finds the name and judges the interview complete. *)
Definition backend_done : Backend := {|
  extract_reply := fun _ _ => Some (JObj [("name", JStr "John Smith")]);
  judge_reply := fun _ _ =>
    Some (JObj [("field_scores", JObj [("name", JInt 9)]);
                ("overall_complete", JBool true);
                ("suggestions", JStr EmptyString)]);
  question_reply := fun _ _ _ _ => Some "What is your name?";
  evaluate_reply := fun _ _ _ => Some "SUFFICIENT"
|}.

(** An extraction with values of every falsy kind next to the name. *)
Definition sparse_extracted : Dict :=
  [("name", JStr "John Smith"); ("nickname", JNull);
   ("email", JStr EmptyString); ("employed", JBool false);
   ("years_abroad", JInt 0)].

(** A backend that extracts [sparse_extracted] and judges it complete. *)
Definition backend_sparse : Backend := {|
  extract_reply := fun _ _ => Some (JObj sparse_extracted);
  judge_reply := fun _ _ =>
    Some (JObj [("field_scores", JObj [("name", JInt 9)]);
                ("overall_complete", JBool true);
                ("suggestions", JStr EmptyString)]);
  question_reply := fun _ _ _ _ => None;
  evaluate_reply := fun _ _ _ => None
|}.

(** The response to the introduction under [backend_sparse]. *)
Definition sparse_summary : ChatResponse.t :=
  ChatResponse.mk
    (summary_header ++ "• **Name**: John Smith" ++ nl ++ summary_footer)%string
    false true (Some sparse_extracted) (Some [("name", JInt 9)]) None.

(** A backend whose every request fails. *)
Definition backend_down : Backend := {|
  extract_reply := fun _ _ => None;
  judge_reply := fun _ _ => None;
  question_reply := fun _ _ _ _ => None;
  evaluate_reply := fun _ _ _ => None
|}.

Definition fresh : InterviewSession.t :=
  InterviewSession.mk 1 1 (Some []) (Some []) 0 false false (Some [])
                      (JObj []).

Definition says (text : string) : Request :=
  {| backend := backend_done; schema := name_schema; message := text |}.

(** A backend whose extractor answers with a list. *)
Definition backend_list : Backend := {|
  extract_reply := fun _ _ => Some (JArr [JStr "John Smith"]);
  judge_reply := fun _ _ => None;
  question_reply := fun _ _ _ _ => None;
  evaluate_reply := fun _ _ _ => Some "INSUFFICIENT: too short "
|}.

(** After "ready" the session has been greeted. *)
Definition greeted : InterviewSession.t :=
  replay repr_unused fresh [says "ready"].

(** After "ready" and an introduction the session awaits confirmation. *)
Definition awaiting : InterviewSession.t :=
  replay repr_unused fresh [says "ready"; says "I am John Smith"].

(** After the user's "yes" the session is completed. *)
Definition confirmed : InterviewSession.t :=
  replay repr_unused fresh
         [says "ready"; says "I am John Smith"; says "yes"].

End Sample.

(* ================================================================== *)
(** * Properties *)

Import Json Models LLMService Interview Machine.

(** ** Substring tests *)

Lemma prefix_iff_append (p s : string) :
  prefix p s = true <-> exists post, s = (p ++ post)%string.
Proof.
  revert s; induction p as [|c p IH]; intros s; simpl.
  - destruct s; split; eauto.
  - destruct s as [|d s].
    + split; [discriminate | intros [post H]; discriminate].
    + simpl. destruct (ascii_dec c d) as [->|Hne].
      * rewrite IH. split; intros [post H]; exists post.
        -- now rewrite H.
        -- now inversion H.
      * split; [discriminate | intros [post H]; inversion H; congruence].
Qed.

Lemma contains_cons (sub : string) (c : ascii) (s : string) :
  PyStr.contains sub (String c s)
  = prefix sub (String c s) || PyStr.contains sub s.
Proof. reflexivity. Qed.

Lemma contains_iff_infix (sub s : string) :
  PyStr.contains sub s = true <->
  exists pre post, s = (pre ++ sub ++ post)%string.
Proof.
  induction s as [|c s IH].
  - change (PyStr.contains sub EmptyString)
      with (prefix sub EmptyString || false).
    rewrite orb_false_r, prefix_iff_append. split.
    + intros [post H]. exists EmptyString, post. exact H.
    + intros [pre [post H]]. destruct pre; [eauto | discriminate].
  - rewrite contains_cons, orb_true_iff, prefix_iff_append, IH. split.
    + intros [[post H] | [pre [post H]]].
      * exists EmptyString, post. exact H.
      * exists (String c pre), post. simpl. now rewrite H.
    + intros [pre [post H]]. destruct pre as [|d pre]; simpl in H.
      * left. eauto.
      * right. inversion H. eauto.
Qed.

Lemma any_in_iff (phrases : list string) (text : string) :
  PyStr.any_in phrases text = true <->
  exists phrase pre post,
    In phrase phrases /\ text = (pre ++ phrase ++ post)%string.
Proof.
  unfold PyStr.any_in. rewrite existsb_exists. split.
  - intros [p [Hin Hc]]. apply contains_iff_infix in Hc.
    destruct Hc as [pre [post H]]. eauto 6.
  - intros [p [pre [post [Hin H]]]]. exists p. split; [exact Hin|].
    apply contains_iff_infix. eauto.
Qed.

(** ** The terminal check *)

Lemma serve_completed repr_other (s : InterviewSession.t) (r : Request) :
  InterviewSession.is_completed s = true -> serve repr_other s r = s.
Proof.
  intros H. unfold serve, chat_with_session. rewrite H. reflexivity.
Qed.

Lemma replay_completed repr_other (s : InterviewSession.t)
    (requests : list Request) :
  InterviewSession.is_completed s = true -> replay repr_other s requests = s.
Proof.
  intros H. unfold replay. induction requests as [|r requests IH]; simpl.
  - reflexivity.
  - rewrite (serve_completed repr_other s r H). exact IH.
Qed.

(** C6: on a completed session the handler returns the fixed
    already-completed message with [is_complete = true] and the session's
    [session_data], calls no service, commits nothing and leaves the session
    object as it was; hence no sequence of later requests changes the
    session, and in particular the length of its conversation. *)
Theorem completed_session_is_frozen repr_other be questions_schema
    (s : InterviewSession.t) (msg : string) :
  InterviewSession.is_completed s = true ->
  chat_with_session repr_other be questions_schema s msg
  = {| session_after := s; committed := false; calls := [];
       result := Returned (ChatResponse.mk completed_msg true false None None
                             (InterviewSession.session_data s)) |}
  /\ forall requests,
       replay repr_other s requests = s
       /\ List.length (InterviewSession.history
                         (replay repr_other s requests))
          = List.length (InterviewSession.history s).
Proof.
  intros H. split.
  - unfold chat_with_session. rewrite H. reflexivity.
  - intros requests. rewrite (replay_completed repr_other s requests H).
    split; reflexivity.
Qed.

Lemma completed_session_is_frozen_witness :
  InterviewSession.is_completed Sample.confirmed = true
  /\ chat_with_session Sample.repr_unused Sample.backend_done
       Sample.name_schema Sample.confirmed "one more thing"
     = {| session_after := Sample.confirmed; committed := false; calls := [];
          result := Returned (ChatResponse.mk completed_msg true false None
                                None
                                (Some [("name", JStr "John Smith")])) |}.
Proof.
  split; [reflexivity|].
  apply (completed_session_is_frozen Sample.repr_unused Sample.backend_done
           Sample.name_schema Sample.confirmed "one more thing").
  reflexivity.
Defined.

(** ** The bootstrap turn *)

(** C7: the first message sent to a freshly started session calls neither the
    extractor nor the judge nor the question generator; the reply is the
    opening prompt when the stripped, lower-cased text contains a phrase of
    the ready vocabulary and the generic welcome otherwise; the reply is the
    one assistant turn appended after the user's turn, so the conversation has
    length 2, and the response has [is_complete = false]. *)
Theorem first_message_is_bootstrap repr_other be questions_schema
    templates new_id template_id (s : InterviewSession.t) (msg : string) :
  start_interview templates new_id template_id = Some s ->
  let o := chat_with_session repr_other be questions_schema s msg in
  let reply :=
    if PyStr.any_in ready_phrases (PyStr.strip (PyStr.lower msg))
    then ready_welcome_msg else welcome_msg in
  calls o = []
  /\ result o = Returned (ChatResponse.mk reply false false None None None)
  /\ InterviewSession.conversation_history (session_after o)
     = Some [user_message msg; assistant_message reply]
  /\ List.length (InterviewSession.history (session_after o)) = 2.
Proof.
  unfold start_interview. destruct (find _ templates); [|discriminate].
  intros H. injection H as <-. cbv zeta.
  unfold chat_with_session. simpl.
  destruct (PyStr.any_in ready_phrases (PyStr.strip (PyStr.lower msg)));
    repeat split; reflexivity.
Qed.

Lemma first_message_is_bootstrap_witness :
  start_interview Sample.templates 1 1 = Some Sample.fresh
  /\ result (chat_with_session Sample.repr_unused Sample.backend_done
               Sample.name_schema Sample.fresh "ready")
     = Returned (ChatResponse.mk ready_welcome_msg false false None None None).
Proof.
  split; [reflexivity|].
  apply (first_message_is_bootstrap Sample.repr_unused Sample.backend_done
           Sample.name_schema Sample.templates 1 1 Sample.fresh "ready").
  reflexivity.
Defined.

(** ** The response evaluator's fallback *)

Lemma eqb_yes_no (s : string) :
  existsb (String.eqb s) ["yes"; "no"] = true <-> s = "yes" \/ s = "no".
Proof.
  simpl. rewrite orb_false_r, orb_true_iff, !String.eqb_eq. tauto.
Qed.

(** C8, as the code has it: for the kind "yes/no" the answer is sufficient
    exactly when its lower-cased text, not stripped, is "yes" or "no", and the
    reason is the fixed request to answer with 'yes' or 'no' whether the
    answer is sufficient or not; for every other kind the answer is sufficient
    exactly when its stripped text has at least 10 characters, with no reason
    when sufficient and the fixed request for more detail otherwise.  The
    answer "maybe" to a yes/no question is insufficient with a reason that
    mentions "yes" and "no".  The evaluator returns the fallback's result
    whenever its backend request fails. *)
Theorem fallback_evaluation_behaviour (answer field_type : string) :
  (field_type = "yes/no" ->
     (fst (_fallback_evaluation answer field_type) = true <->
        PyStr.lower answer = "yes" \/ PyStr.lower answer = "no")
     /\ snd (_fallback_evaluation answer field_type)
        = Some "Please answer with 'yes' or 'no'.")
  /\ (field_type <> "yes/no" ->
     (fst (_fallback_evaluation answer field_type) = true <->
        10 <= String.length (PyStr.strip answer))
     /\ snd (_fallback_evaluation answer field_type)
        = if fst (_fallback_evaluation answer field_type)
          then None
          else Some "Please provide a more detailed response.")
  /\ (_fallback_evaluation "maybe" "yes/no"
      = (false, Some "Please answer with 'yes' or 'no'.")
      /\ PyStr.contains "yes" "Please answer with 'yes' or 'no'." = true
      /\ PyStr.contains "no" "Please answer with 'yes' or 'no'." = true)
  /\ (forall be question,
        evaluate_reply be question answer field_type = None ->
        evaluate_response be question answer field_type
        = _fallback_evaluation answer field_type).
Proof.
  repeat split.
  - subst field_type. unfold _fallback_evaluation. simpl fst.
    intros H. now apply eqb_yes_no.
  - subst field_type. unfold _fallback_evaluation. simpl fst.
    intros H. now apply eqb_yes_no.
  - subst field_type. reflexivity.
  - apply String.eqb_neq in H. unfold _fallback_evaluation. rewrite H.
    destruct (Nat.ltb_spec (String.length (PyStr.strip answer)) 10);
      simpl; [discriminate | lia].
  - apply String.eqb_neq in H. unfold _fallback_evaluation. rewrite H.
    destruct (Nat.ltb_spec (String.length (PyStr.strip answer)) 10);
      simpl; [lia | reflexivity].
  - apply String.eqb_neq in H. unfold _fallback_evaluation. rewrite H.
    destruct (Nat.ltb (String.length (PyStr.strip answer)) 10); reflexivity.
  - intros be question H. unfold evaluate_response. now rewrite H.
Qed.

(** C8 as stated fails twice: the answer " yes" strips and lower-cases to
    "yes" and yet is insufficient, and the sufficient answer "yes" comes with
    a reason. *)
Lemma fallback_evaluation_counterexample :
  ~ (forall answer,
       fst (_fallback_evaluation answer "yes/no") = true <->
       PyStr.strip (PyStr.lower answer) = "yes"
       \/ PyStr.strip (PyStr.lower answer) = "no")
  /\ ~ (forall answer,
          fst (_fallback_evaluation answer "yes/no") = true ->
          snd (_fallback_evaluation answer "yes/no") = None).
Proof.
  split.
  - intros H. specialize (H " yes"). destruct H as [_ H].
    assert (E : fst (_fallback_evaluation " yes" "yes/no") = true)
      by (apply H; left; reflexivity).
    discriminate E.
  - intros H. specialize (H "yes" eq_refl). discriminate H.
Qed.

(** ** The judge's fallback *)

Lemma get_set_same (k : string) (v : json) (d : Dict) :
  get k (set k v d) = Some v.
Proof.
  induction d as [|[k' v'] d IH]; simpl.
  - now rewrite String.eqb_refl.
  - destruct (String.eqb k k') eqn:E; simpl.
    + now rewrite String.eqb_refl.
    + now rewrite E.
Qed.

Lemma get_set_other (k k' : string) (v : json) (d : Dict) :
  k <> k' -> get k (set k' v d) = get k d.
Proof.
  intros Hne. apply String.eqb_neq in Hne.
  induction d as [|[k'' v''] d IH]; simpl.
  - now rewrite Hne.
  - destruct (String.eqb k' k'') eqn:E; simpl.
    + apply String.eqb_eq in E. subst k''. now rewrite Hne.
    + now rewrite IH.
Qed.

Section FallbackScores.

Variable extracted : Dict.

Let score (field_name : string) : json :=
  JInt (if truthy_get field_name extracted then 5 else 0).

Let step (field_scores : Dict) (field : string * FieldInfo) : Dict :=
  set (fst field) (score (fst field)) field_scores.

Lemma fold_scores_absent (questions_schema : Schema) (acc : Dict)
    (field_name : string) :
  ~ In field_name (map fst questions_schema) ->
  get field_name (fold_left step questions_schema acc) = get field_name acc.
Proof.
  revert acc. induction questions_schema as [|[k i] rest IH]; intros acc Hn.
  - reflexivity.
  - simpl in *. rewrite IH by tauto. unfold step. simpl.
    apply get_set_other. intros ->. tauto.
Qed.

Lemma fold_scores_present (questions_schema : Schema) (acc : Dict)
    (field_name : string) :
  In field_name (map fst questions_schema) ->
  get field_name (fold_left step questions_schema acc)
  = Some (score field_name).
Proof.
  revert acc. induction questions_schema as [|[k i] rest IH]; intros acc Hin.
  - contradiction.
  - simpl. destruct (in_dec string_dec field_name (map fst rest)) as [Hr|Hr].
    + now apply IH.
    + destruct Hin as [Hk|Hin]; [|contradiction]. simpl in Hk. subst k.
      rewrite fold_scores_absent by exact Hr.
      unfold step. simpl. apply get_set_same.
Qed.

End FallbackScores.

(** C5, as the code has it: when the judge's backend request fails,
    [judge_completeness] returns [overall_complete = False] and the fixed
    suggestions, whatever was extracted, and field scores defined exactly on
    the schema's fields: 5 when the extracted value is truthy and 0 otherwise,
    so 0 for a null or missing value, and also for an empty string, [False],
    zero or an empty container. *)
Theorem judge_fallback_behaviour be (extracted : Dict)
    (questions_schema : Schema) :
  judge_reply be extracted questions_schema = None ->
  exists field_scores,
    judge_completeness be (JObj extracted) questions_schema
    = Some (JObj field_scores, JBool false, JStr judge_fallback_suggestions)
    /\ (forall field_name,
          In field_name (map fst questions_schema) ->
          get field_name field_scores
          = Some (JInt (if truthy_get field_name extracted then 5 else 0)))
    /\ (forall field_name,
          In field_name (map fst questions_schema) ->
          get field_name extracted = None
          \/ get field_name extracted = Some JNull ->
          get field_name field_scores = Some (JInt 0))
    /\ (forall field_name,
          ~ In field_name (map fst questions_schema) ->
          get field_name field_scores = None).
Proof.
  intros Hfail.
  exists (judge_fallback_scores extracted questions_schema).
  split; [|split; [|split]].
  - unfold judge_completeness. rewrite Hfail. reflexivity.
  - intros f Hin. unfold judge_fallback_scores.
    now apply (fold_scores_present extracted).
  - intros f Hin Hnull. unfold judge_fallback_scores.
    rewrite (fold_scores_present extracted) by exact Hin.
    unfold truthy_get. destruct Hnull as [-> | ->]; reflexivity.
  - intros f Hn. unfold judge_fallback_scores.
    now rewrite (fold_scores_absent extracted).
Qed.

Lemma judge_fallback_behaviour_witness :
  judge_reply Sample.backend_down [("name", JStr "John Smith")]
              Sample.name_schema = None
  /\ exists field_scores,
       judge_completeness Sample.backend_down
         (JObj [("name", JStr "John Smith")]) Sample.name_schema
       = Some (JObj field_scores, JBool false,
               JStr judge_fallback_suggestions)
       /\ get "name" field_scores = Some (JInt 5).
Proof.
  split; [reflexivity|].
  destruct (judge_fallback_behaviour Sample.backend_down
              [("name", JStr "John Smith")] Sample.name_schema eq_refl)
    as [field_scores [H [Hscore _]]].
  exists field_scores. split; [exact H|].
  apply (Hscore "name"). simpl. left. reflexivity.
Defined.

(** C5 as stated fails: a yes/no field extracted as [False] holds a value that
    is neither null nor missing nor empty, and the fallback scores it 0. *)
Lemma judge_fallback_counterexample :
  ~ (forall be extracted questions_schema field_name v field_scores,
       judge_reply be extracted questions_schema = None ->
       In field_name (map fst questions_schema) ->
       get field_name extracted = Some v ->
       v <> JNull -> v <> JStr EmptyString -> v <> JArr [] -> v <> JObj [] ->
       judge_completeness be (JObj extracted) questions_schema
       = Some (JObj field_scores, JBool false,
               JStr judge_fallback_suggestions) ->
       get field_name field_scores = Some (JInt 5)).
Proof.
  intros H.
  specialize (H Sample.backend_down [("available", JBool false)]
                Sample.availability_schema "available" (JBool false)
                [("available", JInt 0)]).
  assert (E : get "available" [("available", JInt 0)] = Some (JInt 5)).
  { apply H; try reflexivity; try discriminate. simpl. left. reflexivity. }
  discriminate E.
Qed.

(** ** The confirmation branch *)


Lemma length_one_more_false {A : Type} (l : list A) (x : A) :
  l <> [] -> Nat.eqb (List.length (l ++ [x])) 1 = false.
Proof.
  intros H. destruct l as [|a l]; [contradiction|].
  simpl. rewrite length_app. simpl. destruct (List.length l); reflexivity.
Qed.

(** The value of [extracted_data or {}]. *)
Lemma extracted_or_empty (extracted_data : option Dict) :
  match extracted_data with
  | Some ((_ :: _) as extracted) => extracted
  | _ => []
  end
  = match extracted_data with
    | Some extracted => extracted
    | None => []
    end.
Proof. destruct extracted_data as [[|item d]|]; reflexivity. Qed.




(** ** The extraction branch *)

Lemma andb_orb_false (a c r : bool) :
  a && (c || r) = false -> a && c = false /\ a && r = false.
Proof. destruct a, c, r; simpl; auto. Qed.

(** In the extraction branch the handler awaits the extractor on the turns
    that preceded the incoming message and then the judge on the extractor's
    result; the extractor is awaited once; [awaiting_confirmation] is only
    ever set, never cleared. *)
Lemma extraction_branch repr_other be questions_schema
    (s : InterviewSession.t) (msg : string) :
  InterviewSession.is_completed s = false ->
  InterviewSession.awaiting_confirmation s
  && (PyStr.any_in confirm_phrases (PyStr.strip (PyStr.lower msg))
      || PyStr.any_in reject_phrases (PyStr.strip (PyStr.lower msg))) = false ->
  InterviewSession.history s <> [] ->
  exists rest,
    calls (chat_with_session repr_other be questions_schema s msg)
    = extract_call (InterviewSession.history s) questions_schema
      :: judge_call (extract_data_from_conversation
                       be (InterviewSession.history s) questions_schema)
                    questions_schema
      :: rest
    /\ (forall h q, ~ In (extract_call h q) rest)
    /\ (InterviewSession.awaiting_confirmation s = true ->
        InterviewSession.awaiting_confirmation
          (session_after
             (chat_with_session repr_other be questions_schema s msg))
        = true).
Proof.
  intros Hopen Hbranch Hhist.
  destruct (andb_orb_false _ _ _ Hbranch) as [Hc Hr].
  unfold chat_with_session. rewrite Hopen. cbv zeta.
  cbn [InterviewSession.awaiting_confirmation
       InterviewSession.set_conversation_history].
  rewrite Hc, Hr, (length_one_more_false _ _ Hhist), removelast_last.
  destruct (judge_completeness be _ questions_schema)
    as [[[field_scores overall_complete] suggestions]|];
    destruct (extract_data_from_conversation be _ questions_schema);
    try (eexists; split; [reflexivity | split; [| intros H; exact H]];
         intros h q Hin; simpl in Hin; intuition discriminate).
  destruct (truthy overall_complete).
  - eexists; split; [reflexivity | split; [| reflexivity]].
    intros h q [].
  - destruct (generate_next_question be _ questions_schema _ field_scores
                                     suggestions);
      (eexists; split; [reflexivity | split; [| intros H; exact H]]);
      intros h q Hin; simpl in Hin; intuition discriminate.
Qed.




(** The extractor is awaited with nothing but the turns that preceded the
    incoming message, of which there is at least one. *)
Lemma extractor_call_arguments repr_other be questions_schema
    (s : InterviewSession.t) (msg : string) h q :
  In (extract_call h q)
     (calls (chat_with_session repr_other be questions_schema s msg)) ->
  h = InterviewSession.history s /\ q = questions_schema
  /\ 1 <= List.length (InterviewSession.history s).
Proof.
  destruct (InterviewSession.is_completed s) eqn:Hopen.
  { unfold chat_with_session. rewrite Hopen. intros []. }
  destruct (InterviewSession.awaiting_confirmation s
            && (PyStr.any_in confirm_phrases (PyStr.strip (PyStr.lower msg))
                || PyStr.any_in reject_phrases
                     (PyStr.strip (PyStr.lower msg)))) eqn:Hbranch.
  { destruct (InterviewSession.awaiting_confirmation s) eqn:Hwait;
      [|discriminate Hbranch].
    cbn [andb] in Hbranch.
    unfold chat_with_session. rewrite Hopen. cbv zeta.
    cbn [InterviewSession.awaiting_confirmation
         InterviewSession.set_conversation_history].
    rewrite Hwait. cbn [andb].
    destruct (PyStr.any_in confirm_phrases (PyStr.strip (PyStr.lower msg)));
      [intros []|].
    cbn [orb] in Hbranch. rewrite Hbranch. intros []. }
  destruct (InterviewSession.history s) as [|m h0] eqn:Hhist.
  { destruct (andb_orb_false _ _ _ Hbranch) as [Hc Hr].
    unfold chat_with_session. rewrite Hopen. cbv zeta.
    cbn [InterviewSession.awaiting_confirmation
         InterviewSession.set_conversation_history].
    rewrite Hc, Hr, Hhist. simpl. intros []. }
  assert (Hne : InterviewSession.history s <> [])
    by (rewrite Hhist; discriminate).
  destruct (extraction_branch repr_other be questions_schema s msg
              Hopen Hbranch Hne) as [rest [Hcalls [Hrest _]]].
  rewrite Hcalls, Hhist. simpl.
  intros [E|[E|Hin]].
  - inversion E. repeat split. lia.
  - discriminate E.
  - destruct (Hrest h q Hin).
Qed.

(** ** Reachable sessions *)

Ltac chat_cases :=
  unfold chat_with_session; cbv zeta;
  repeat match goal with
         | |- context [if ?b then _ else _] => destruct b eqn:?
         | |- context [match ?x with _ => _ end] => destruct x eqn:?
         end.



(** On reachable sessions the flags are related the other way round: a
    completed session still has [awaiting_confirmation] set. *)
Lemma completed_still_awaiting repr_other (s : InterviewSession.t) :
  reachable repr_other s ->
  InterviewSession.is_completed s = true ->
  InterviewSession.awaiting_confirmation s = true.
Proof.
  induction 1 as [templates new_id template_id s Hstart | s r Hreach IH].
  - unfold start_interview in Hstart.
    destruct (find _ templates); [|discriminate].
    injection Hstart as <-. discriminate.
  - unfold serve, stored.
    destruct (InterviewSession.is_completed s) eqn:Hopen.
    + unfold chat_with_session. rewrite Hopen. cbn [committed].
      intros _. exact (IH eq_refl).
    + clear IH. generalize (message r) as msg. generalize (schema r) as q.
      generalize (backend r) as be. intros be q msg.
      unfold chat_with_session. rewrite Hopen. cbv zeta.
      cbn [InterviewSession.awaiting_confirmation
           InterviewSession.set_conversation_history].
      destruct (InterviewSession.awaiting_confirmation s) eqn:Hwait;
        cbn [andb];
        repeat match goal with
               | |- context [if ?b then _ else _] => destruct b eqn:?
               | |- context [match ?x with _ => _ end] => destruct x eqn:?
               end;
        cbn [committed session_after InterviewSession.is_completed
             InterviewSession.awaiting_confirmation
             InterviewSession.set_conversation_history
             InterviewSession.set_is_completed
             InterviewSession.set_session_data
             InterviewSession.set_awaiting_confirmation
             InterviewSession.set_extracted_data
             InterviewSession.set_field_scores];
        congruence.
Qed.

Lemma sample_greeted_reachable :
  reachable Sample.repr_unused Sample.greeted.
Proof.
  change Sample.greeted
    with (serve Sample.repr_unused Sample.fresh (Sample.says "ready")).
  apply reachable_chat.
  apply (reachable_start Sample.repr_unused Sample.templates 1 1).
  reflexivity.
Qed.

Lemma sample_awaiting_reachable :
  reachable Sample.repr_unused Sample.awaiting.
Proof.
  change Sample.awaiting
    with (serve Sample.repr_unused Sample.greeted
                (Sample.says "I am John Smith")).
  apply reachable_chat. exact sample_greeted_reachable.
Qed.

Lemma sample_confirmed_reachable :
  reachable Sample.repr_unused Sample.confirmed.
Proof.
  change Sample.confirmed
    with (serve Sample.repr_unused Sample.awaiting (Sample.says "yes")).
  apply reachable_chat. exact sample_awaiting_reachable.
Qed.





(** ** The confirmation summary *)

Lemma string_app_assoc (a b c : string) :
  ((a ++ b) ++ c)%string = (a ++ (b ++ c))%string.
Proof. induction a as [|x a IH]; simpl; [reflexivity | now rewrite IH]. Qed.

Lemma string_app_nil_r (a : string) : (a ++ EmptyString)%string = a.
Proof. induction a as [|x a IH]; simpl; [reflexivity | now rewrite IH]. Qed.

Lemma summary_loop repr_other (extracted : Dict) (acc : string) :
  fold_left
    (fun confirmation_msg item =>
       if truthy (snd item)
       then (confirmation_msg
             ++ summary_line repr_other (fst item) (snd item))%string
       else confirmation_msg)
    extracted acc
  = (acc
     ++ fold_right String.append EmptyString
          (map (fun item => summary_line repr_other (fst item) (snd item))
               (filter (fun item => truthy (snd item)) extracted)))%string.
Proof.
  revert acc. induction extracted as [|[k v] rest IH]; intros acc; simpl.
  - now rewrite string_app_nil_r.
  - rewrite IH. destruct (truthy v); simpl.
    + now rewrite string_app_assoc.
    + reflexivity.
Qed.

Lemma summary_msg_lines repr_other (extracted : Dict) :
  summary_msg repr_other extracted
  = (summary_header
     ++ fold_right String.append EmptyString
          (map (fun item => summary_line repr_other (fst item) (snd item))
               (filter (fun item => truthy (snd item)) extracted))
     ++ summary_footer)%string.
Proof.
  unfold summary_msg. now rewrite summary_loop, string_app_assoc.
Qed.

Lemma summary_msg_skips repr_other (before after : Dict)
    (field_name : string) (value : json) :
  truthy value = false ->
  summary_msg repr_other (before ++ (field_name, value) :: after)
  = summary_msg repr_other (before ++ after).
Proof.
  intros H. rewrite !summary_msg_lines, !filter_app. simpl. now rewrite H.
Qed.

(** C9: a response that asks for confirmation carries the whole extracted
    data, which is also stored on the session, while its text is the header,
    one line per item of the extracted data whose value is truthy, in order,
    and the footer; an item whose value is null, the empty string, [False] or
    0 contributes nothing: the text is the one built without it. *)
Theorem summary_lists_truthy_fields repr_other be questions_schema
    (s : InterviewSession.t) (msg : string) (r : ChatResponse.t) :
  result (chat_with_session repr_other be questions_schema s msg)
  = Returned r ->
  ChatResponse.awaiting_confirmation r = true ->
  exists extracted,
    ChatResponse.extracted_data r = Some extracted
    /\ InterviewSession.extracted_data
         (session_after
            (chat_with_session repr_other be questions_schema s msg))
       = Some extracted
    /\ ChatResponse.response r
       = (summary_header
          ++ fold_right String.append EmptyString
               (map (fun item =>
                       summary_line repr_other (fst item) (snd item))
                    (filter (fun item => truthy (snd item)) extracted))
          ++ summary_footer)%string
    /\ forall before field_name value after,
         extracted = before ++ (field_name, value) :: after ->
         In value [JNull; JStr EmptyString; JBool false; JInt 0] ->
         ChatResponse.response r = summary_msg repr_other (before ++ after).
Proof.
  chat_cases; cbn [result session_after]; intros E; inversion E; subst r;
    cbn [ChatResponse.awaiting_confirmation]; try discriminate; intros _.
  match goal with
  | |- exists extracted, ChatResponse.extracted_data
                           (ChatResponse.mk _ _ _ (Some ?d) _ _) = _ /\ _ =>
      exists d
  end.
  cbn [ChatResponse.extracted_data ChatResponse.response
       InterviewSession.extracted_data
       InterviewSession.set_conversation_history
       InterviewSession.set_awaiting_confirmation
       InterviewSession.set_extracted_data
       InterviewSession.set_field_scores].
  split; [reflexivity|]. split; [reflexivity|].
  split; [apply summary_msg_lines|].
  intros before field_name value after -> Hin.
  apply summary_msg_skips.
  simpl in Hin. destruct Hin as [<-|[<-|[<-|[<-|[]]]]]; reflexivity.
Qed.

Lemma summary_lists_truthy_fields_witness :
  result (chat_with_session Sample.repr_unused Sample.backend_sparse
            Sample.name_schema Sample.greeted "I am John Smith")
  = Returned Sample.sparse_summary
  /\ ChatResponse.awaiting_confirmation Sample.sparse_summary = true
  /\ exists extracted,
       ChatResponse.extracted_data Sample.sparse_summary = Some extracted
       /\ ChatResponse.response Sample.sparse_summary
          = summary_msg Sample.repr_unused
              ([("name", JStr "John Smith")]
               ++ [("email", JStr EmptyString); ("employed", JBool false);
                   ("years_abroad", JInt 0)]).
Proof.
  split; [reflexivity|]. split; [reflexivity|].
  destruct (summary_lists_truthy_fields Sample.repr_unused
              Sample.backend_sparse Sample.name_schema Sample.greeted
              "I am John Smith" Sample.sparse_summary eq_refl eq_refl)
    as [extracted [Hdata [_ [_ Hskip]]]].
  exists extracted. split; [exact Hdata|].
  apply (Hskip [("name", JStr "John Smith")] "nickname" JNull
               [("email", JStr EmptyString); ("employed", JBool false);
                ("years_abroad", JInt 0)]).
  - injection Hdata as <-. reflexivity.
  - simpl. left. reflexivity.
Defined.

(** ** Session status *)


Lemma percentage_of_zero (total_questions : Z) :
  (0 < total_questions)%Z -> percentage 0 total_questions = Some 0%Z.
Proof.
  destruct total_questions as [|p|p]; intros H; try lia. reflexivity.
Qed.



Example status_half_way :
  get_session_status
    [InterviewTemplate.mk 7
       (Some [("name", {| prompt := "What is your name?"; type := "string" |});
              ("experience",
               {| prompt := "Tell me about your experience.";
                  type := "story" |})])
       true]
    (InterviewSession.mk 3 7 None None 1 false false None JNull)
  = Some {| session_id := 3; current_question := 2; total_questions := 2;
            is_completed := false; progress_percentage := 50 |}.
Proof. reflexivity. Qed.

Example percentage_rounds_to_even :
  percentage 1 3 = Some 33%Z /\ percentage 2 3 = Some 67%Z
  /\ percentage 1 8 = Some 12%Z /\ percentage 3 8 = Some 38%Z
  /\ percentage 8 8 = Some 100%Z.
Proof. repeat split; reflexivity. Qed.

(* ================================================================== *)
(** * Further properties of the handlers *)

Import Shape Generation Templates.

(** ** The reject branch *)

(** On a session that is not completed and awaits confirmation, a message
    whose stripped, lower-cased text contains no confirm phrase and contains a
    reject phrase clears [awaiting_confirmation], appends the user's turn and
    the fixed invitation to continue, commits, awaits no service, and answers
    with [is_complete = false] and nothing else; the extracted data, the
    scores and the completion flag stay as they were. *)
Theorem rejection_reopens repr_other be questions_schema
    (s : InterviewSession.t) (msg phrase pre post : string) :
  InterviewSession.is_completed s = false ->
  InterviewSession.awaiting_confirmation s = true ->
  PyStr.any_in confirm_phrases (PyStr.strip (PyStr.lower msg)) = false ->
  In phrase reject_phrases ->
  PyStr.strip (PyStr.lower msg) = (pre ++ phrase ++ post)%string ->
  chat_with_session repr_other be questions_schema s msg
  = {| session_after :=
         InterviewSession.mk
           (InterviewSession.id s) (InterviewSession.template_id s)
           (InterviewSession.session_data s)
           (Some (InterviewSession.history s
                  ++ [user_message msg; assistant_message continue_msg]))
           (InterviewSession.current_question_index s) false false
           (InterviewSession.extracted_data s)
           (InterviewSession.field_scores s);
       committed := true;
       calls := [];
       result := Returned (ChatResponse.mk continue_msg false false None None
                             None) |}.
Proof.
  intros Hopen Hwait Hc Hin Htext.
  assert (Hr : PyStr.any_in reject_phrases (PyStr.strip (PyStr.lower msg))
               = true).
  { apply any_in_iff. exists phrase, pre, post. now split. }
  unfold chat_with_session. rewrite Hopen. cbv zeta.
  cbn [InterviewSession.awaiting_confirmation
       InterviewSession.set_conversation_history].
  rewrite Hwait, Hc, Hr. cbn [andb].
  unfold InterviewSession.set_conversation_history,
         InterviewSession.set_awaiting_confirmation.
  cbn. rewrite Hopen, <- app_assoc. reflexivity.
Qed.

Lemma rejection_reopens_witness :
  InterviewSession.is_completed Sample.awaiting = false
  /\ InterviewSession.awaiting_confirmation Sample.awaiting = true
  /\ PyStr.any_in confirm_phrases (PyStr.strip (PyStr.lower "That is WRONG"))
     = false
  /\ In "wrong" reject_phrases
  /\ PyStr.strip (PyStr.lower "That is WRONG")
     = ("that is " ++ "wrong" ++ "")%string
  /\ InterviewSession.awaiting_confirmation
       (session_after (chat_with_session Sample.repr_unused
                         Sample.backend_down Sample.name_schema
                         Sample.awaiting "That is WRONG"))
     = false.
Proof.
  split; [reflexivity|]. split; [reflexivity|]. split; [reflexivity|].
  split; [simpl; tauto|]. split; [reflexivity|].
  rewrite (rejection_reopens Sample.repr_unused Sample.backend_down
             Sample.name_schema Sample.awaiting "That is WRONG" "wrong"
             "that is " "" eq_refl eq_refl eq_refl
             (or_intror (or_intror (or_introl eq_refl))) eq_refl).
  reflexivity.
Defined.

(** The confirm branch, from the truth of its test. *)
Lemma confirm_branch repr_other be questions_schema
    (s : InterviewSession.t) (msg : string) :
  InterviewSession.is_completed s = false ->
  InterviewSession.awaiting_confirmation s = true ->
  PyStr.any_in confirm_phrases (PyStr.strip (PyStr.lower msg)) = true ->
  chat_with_session repr_other be questions_schema s msg
  = {| session_after :=
         InterviewSession.mk
           (InterviewSession.id s) (InterviewSession.template_id s)
           (Some match InterviewSession.extracted_data s with
                 | Some extracted => extracted
                 | None => []
                 end)
           (Some (InterviewSession.history s
                  ++ [user_message msg; assistant_message confirmed_msg]))
           (InterviewSession.current_question_index s) true true
           (InterviewSession.extracted_data s)
           (InterviewSession.field_scores s);
       committed := true;
       calls := [];
       result := Returned (ChatResponse.mk confirmed_msg true false None None
                             (Some match InterviewSession.extracted_data s with
                                   | Some extracted => extracted
                                   | None => []
                                   end)) |}.
Proof.
  intros Hopen Hwait Hany.
  unfold chat_with_session. rewrite Hopen. cbv zeta.
  cbn [InterviewSession.awaiting_confirmation
       InterviewSession.set_conversation_history].
  rewrite Hwait, Hany. cbn [andb].
  unfold InterviewSession.set_conversation_history,
         InterviewSession.set_is_completed,
         InterviewSession.set_session_data.
  cbn. rewrite Hwait, extracted_or_empty, <- app_assoc. reflexivity.
Qed.

(** The confirm vocabulary is tested first and by substring, and "incorrect"
    contains "correct": on a session that is not completed and awaits
    confirmation, every message whose stripped, lower-cased text contains
    "incorrect" completes the interview instead of reopening it. *)
Theorem incorrect_confirms repr_other be questions_schema
    (s : InterviewSession.t) (msg : string) :
  InterviewSession.is_completed s = false ->
  InterviewSession.awaiting_confirmation s = true ->
  PyStr.contains "incorrect" (PyStr.strip (PyStr.lower msg)) = true ->
  InterviewSession.is_completed
    (session_after (chat_with_session repr_other be questions_schema s msg))
  = true
  /\ result (chat_with_session repr_other be questions_schema s msg)
     = Returned (ChatResponse.mk confirmed_msg true false None None
                   (Some match InterviewSession.extracted_data s with
                         | Some extracted => extracted
                         | None => []
                         end)).
Proof.
  intros Hopen Hwait Hinc.
  apply contains_iff_infix in Hinc. destruct Hinc as [pre [post Htext]].
  assert (Hany : PyStr.any_in confirm_phrases (PyStr.strip (PyStr.lower msg))
                 = true).
  { apply any_in_iff. exists "correct", (pre ++ "in")%string, post.
    split; [simpl; tauto|]. rewrite Htext, string_app_assoc. reflexivity. }
  rewrite (confirm_branch repr_other be questions_schema s msg Hopen Hwait
             Hany).
  split; reflexivity.
Qed.

Lemma incorrect_confirms_witness :
  InterviewSession.is_completed Sample.awaiting = false
  /\ InterviewSession.awaiting_confirmation Sample.awaiting = true
  /\ PyStr.contains "incorrect"
       (PyStr.strip (PyStr.lower "No, the name is incorrect")) = true
  /\ InterviewSession.is_completed
       (session_after (chat_with_session Sample.repr_unused
                         Sample.backend_down Sample.name_schema
                         Sample.awaiting "No, the name is incorrect"))
     = true.
Proof.
  split; [reflexivity|]. split; [reflexivity|]. split; [reflexivity|].
  apply (incorrect_confirms Sample.repr_unused Sample.backend_down
           Sample.name_schema Sample.awaiting "No, the name is incorrect");
    reflexivity.
Defined.

(** ** One exchange per committing run *)

Tactic Notation "session_fields" "in" hyp(H) :=
  cbn [session_after committed calls result
       InterviewSession.is_completed
       InterviewSession.awaiting_confirmation
       InterviewSession.set_conversation_history
       InterviewSession.set_is_completed InterviewSession.set_session_data
       InterviewSession.set_awaiting_confirmation
       InterviewSession.set_extracted_data InterviewSession.set_field_scores]
    in H.

Ltac session_fields :=
  cbn [session_after committed calls result
       InterviewSession.id InterviewSession.template_id
       InterviewSession.session_data InterviewSession.conversation_history
       InterviewSession.current_question_index InterviewSession.is_completed
       InterviewSession.awaiting_confirmation InterviewSession.extracted_data
       InterviewSession.field_scores InterviewSession.history
       InterviewSession.set_conversation_history
       InterviewSession.set_is_completed InterviewSession.set_session_data
       InterviewSession.set_awaiting_confirmation
       InterviewSession.set_extracted_data InterviewSession.set_field_scores
       ChatResponse.response ChatResponse.awaiting_confirmation].

Lemma chat_exchange repr_other be questions_schema
    (s : InterviewSession.t) (msg : string) :
  committed (chat_with_session repr_other be questions_schema s msg) = true ->
  exists reply,
    InterviewSession.conversation_history
      (session_after (chat_with_session repr_other be questions_schema s msg))
    = Some (InterviewSession.history s
            ++ [user_message msg; assistant_message reply])
    /\ forall r,
         result (chat_with_session repr_other be questions_schema s msg)
         = Returned r ->
         ChatResponse.response r = reply.
Proof.
  chat_cases; session_fields; try discriminate; intros _;
    eexists; (split; [rewrite <- app_assoc; reflexivity|]);
    intros r E; inversion E; reflexivity.
Qed.



(** The conversation of a reachable session is a sequence of exchanges, each
    a user turn followed by an assistant turn; it is never null. *)
Theorem conversation_alternates repr_other (s : InterviewSession.t) :
  reachable repr_other s ->
  exists exchanges : list (string * string),
    InterviewSession.conversation_history s
    = Some (flat_map (fun e => [user_message (fst e);
                                assistant_message (snd e)]) exchanges).
Proof.
  induction 1 as [templates new_id template_id s Hstart | s r Hreach IH].
  - unfold start_interview in Hstart.
    destruct (find _ templates); [|discriminate].
    injection Hstart as <-. exists []. reflexivity.
  - destruct IH as [exchanges IH]. unfold serve, stored.
    destruct (committed _) eqn:Hc.
    + destruct (chat_exchange _ _ _ _ _ Hc) as [reply [Hh _]].
      exists (exchanges ++ [(message r, reply)]).
      rewrite Hh. unfold InterviewSession.history. rewrite IH.
      rewrite flat_map_app. reflexivity.
    + exists exchanges. exact IH.
Qed.

Lemma conversation_alternates_witness :
  exists exchanges : list (string * string),
    InterviewSession.conversation_history Sample.confirmed
    = Some (flat_map (fun e => [user_message (fst e);
                                assistant_message (snd e)]) exchanges).
Proof.
  apply (conversation_alternates Sample.repr_unused Sample.confirmed).
  exact sample_confirmed_reachable.
Defined.

(** ** What the chat handler never writes *)

Lemma chat_keeps_columns repr_other be questions_schema
    (s : InterviewSession.t) (msg : string) :
  InterviewSession.id
    (session_after (chat_with_session repr_other be questions_schema s msg))
  = InterviewSession.id s
  /\ InterviewSession.template_id
       (session_after (chat_with_session repr_other be questions_schema s msg))
     = InterviewSession.template_id s
  /\ InterviewSession.current_question_index
       (session_after (chat_with_session repr_other be questions_schema s msg))
     = InterviewSession.current_question_index s.
Proof. chat_cases; session_fields; repeat split; reflexivity. Qed.

Lemma reachable_index_zero repr_other (s : InterviewSession.t) :
  reachable repr_other s ->
  InterviewSession.current_question_index s = 0%Z.
Proof.
  induction 1 as [templates new_id template_id s Hstart | s r Hreach IH].
  - unfold start_interview in Hstart.
    destruct (find _ templates); [|discriminate].
    injection Hstart as <-. reflexivity.
  - unfold serve, stored. destruct (committed _); [|exact IH].
    destruct (chat_keeps_columns repr_other (backend r) (schema r) s
                (message r)) as [_ [_ H]].
    now rewrite H.
Qed.

(** The chat handler never advances [current_question_index]: on every
    reachable session it is 0, so whenever [get_session_status] returns for
    such a session, completed or not, it reports question 1 and a progress of
    0 percent. *)
Theorem progress_never_moves repr_other (s : InterviewSession.t) :
  reachable repr_other s ->
  InterviewSession.current_question_index s = 0%Z
  /\ forall templates st,
       get_session_status templates s = Some st ->
       current_question st = 1%Z
       /\ progress_percentage st = 0%Z
       /\ is_completed st = InterviewSession.is_completed s.
Proof.
  intros Hreach.
  pose proof (reachable_index_zero repr_other s Hreach) as Hidx.
  split; [exact Hidx|].
  intros templates st. unfold get_session_status. rewrite Hidx.
  destruct (find _ templates) as [t|]; [|discriminate].
  destruct (InterviewTemplate.questions_schema t) as [[|field rest]|].
  - intros H. injection H as <-. repeat split.
  - assert (Hpos : (0 < Z.of_nat (List.length (field :: rest)))%Z)
      by (simpl; lia).
    rewrite (proj2 (Z.ltb_lt _ _) Hpos), (percentage_of_zero _ Hpos).
    intros H. injection H as <-. repeat split.
  - intros H. injection H as <-. repeat split.
Qed.

Lemma progress_never_moves_witness :
  InterviewSession.is_completed Sample.confirmed = true
  /\ get_session_status Sample.templates Sample.confirmed
     = Some {| session_id := 1; current_question := 1; total_questions := 1;
               is_completed := true; progress_percentage := 0 |}
  /\ InterviewSession.current_question_index Sample.confirmed = 0%Z.
Proof.
  split; [reflexivity|]. split; [reflexivity|].
  apply (progress_never_moves Sample.repr_unused Sample.confirmed).
  exact sample_confirmed_reachable.
Defined.

(** On every reachable session [extracted_data] is a dict, never null, and
    [session_data] is the empty dict until the session is completed and the
    extracted data from then on. *)
Theorem session_data_is_final_snapshot repr_other (s : InterviewSession.t) :
  reachable repr_other s ->
  exists extracted,
    InterviewSession.extracted_data s = Some extracted
    /\ InterviewSession.session_data s
       = Some (if InterviewSession.is_completed s then extracted else []).
Proof.
  induction 1 as [templates new_id template_id s Hstart | s r Hreach IH].
  - unfold start_interview in Hstart.
    destruct (find _ templates); [|discriminate].
    injection Hstart as <-. exists []. split; reflexivity.
  - destruct IH as [extracted [He Hd]]. unfold serve, stored.
    generalize (message r) as msg. generalize (schema r) as q.
    generalize (backend r) as be. intros be q msg.
    destruct (InterviewSession.is_completed s) eqn:Hopen.
    + unfold chat_with_session. rewrite Hopen. cbn [committed].
      exists extracted. rewrite Hopen. now split.
    + unfold chat_with_session. rewrite Hopen. cbv zeta.
      cbn [InterviewSession.extracted_data
           InterviewSession.set_conversation_history
           InterviewSession.set_is_completed].
      rewrite He.
      repeat match goal with
             | |- context [if ?b then _ else _] => destruct b eqn:?
             | |- context [match ?x with _ => _ end] => destruct x eqn:?
             end;
        session_fields;
        repeat match goal with
               | H : InterviewSession.is_completed _ = _ |- _ =>
                   progress session_fields in H
               end;
        try congruence; subst; rewrite ?Hd;
        first [ eexists; split; [eassumption | reflexivity]
              | eexists; split; reflexivity ].
Qed.

Lemma session_data_is_final_snapshot_witness :
  exists extracted,
    InterviewSession.extracted_data Sample.confirmed = Some extracted
    /\ InterviewSession.session_data Sample.confirmed
       = Some (if InterviewSession.is_completed Sample.confirmed
               then extracted else []).
Proof.
  apply (session_data_is_final_snapshot Sample.repr_unused Sample.confirmed).
  exact sample_confirmed_reachable.
Defined.

(** ** Service calls *)

Lemma removelast_appended {A : Type} (l : list A) (x : A) :
  removelast (l ++ [x]) = l.
Proof. apply removelast_last. Qed.

(** The services are awaited in one fixed order and each at most once: no
    call at all, or the extractor on the earlier turns and then the judge on
    exactly what the extractor returned, and possibly, last, the question
    generator on the whole conversation, the new user turn included. *)
Theorem services_in_order repr_other be questions_schema
    (s : InterviewSession.t) (msg : string) :
  calls (chat_with_session repr_other be questions_schema s msg) = []
  \/ exists rest,
       calls (chat_with_session repr_other be questions_schema s msg)
       = extract_call (InterviewSession.history s) questions_schema
         :: judge_call (extract_data_from_conversation
                          be (InterviewSession.history s) questions_schema)
                       questions_schema
         :: rest
       /\ (rest = []
           \/ exists field_scores suggestions,
                rest = [generate_call
                          (InterviewSession.history s ++ [user_message msg])
                          questions_schema
                          (extract_data_from_conversation
                             be (InterviewSession.history s) questions_schema)
                          field_scores suggestions]).
Proof.
  unfold chat_with_session; cbv zeta.
  rewrite removelast_appended.
  repeat match goal with
         | |- context [if ?b then _ else _] => destruct b eqn:?
         | |- context [match ?x with _ => _ end] => destruct x eqn:?
         end;
    session_fields;
    first [ left; reflexivity
          | right; eexists; split; [reflexivity|]; left; reflexivity
          | right; eexists; split; [reflexivity|]; right;
            eexists; eexists; reflexivity ].
Qed.

(** The question generator is awaited only when the judge did not declare
    the interview complete, and then with the whole conversation, the
    extractor's result and the judge's scores and suggestions. *)
Theorem generator_follows_judge repr_other be questions_schema
    (s : InterviewSession.t) (msg : string) h q e f sg :
  In (generate_call h q e f sg)
     (calls (chat_with_session repr_other be questions_schema s msg)) ->
  h = InterviewSession.history s ++ [user_message msg]
  /\ q = questions_schema
  /\ e = extract_data_from_conversation
           be (InterviewSession.history s) questions_schema
  /\ exists overall_complete,
       judge_completeness be e questions_schema
       = Some (f, overall_complete, sg)
       /\ truthy overall_complete = false.
Proof.
  unfold chat_with_session; cbv zeta.
  rewrite removelast_appended.
  destruct (InterviewSession.is_completed s); [intros []|].
  destruct (_ && PyStr.any_in confirm_phrases _); [intros []|].
  destruct (_ && PyStr.any_in reject_phrases _); [intros []|].
  destruct (Nat.eqb _ 1); [intros []|].
  destruct (judge_completeness be _ questions_schema)
    as [[[field_scores overall_complete] suggestions]|] eqn:Hj.
  - destruct (extract_data_from_conversation be _ questions_schema) eqn:He;
      try (cbn [calls]; intros Hin; simpl in Hin;
           intuition discriminate).
    destruct (truthy overall_complete) eqn:Ht.
    + cbn [calls]. intros Hin. simpl in Hin. intuition discriminate.
    + destruct (generate_next_question be _ questions_schema _ field_scores
                                       suggestions);
        cbn [calls]; intros Hin; simpl in Hin;
        destruct Hin as [E|[E|[E|[]]]]; try discriminate E;
        inversion E; subst; repeat split; eauto.
  - destruct (extract_data_from_conversation be _ questions_schema);
      cbn [calls]; intros Hin; simpl in Hin; intuition discriminate.
Qed.

Lemma generator_follows_judge_witness :
  In (generate_call
        (InterviewSession.history Sample.greeted
         ++ [user_message "I would rather not say"])
        Sample.name_schema (JObj [])
        (JObj [("name", JInt 0)])
        (JStr judge_fallback_suggestions))
     (calls (chat_with_session Sample.repr_unused Sample.backend_down
               Sample.name_schema Sample.greeted "I would rather not say"))
  /\ exists overall_complete,
       judge_completeness Sample.backend_down (JObj []) Sample.name_schema
       = Some (JObj [("name", JInt 0)], overall_complete,
               JStr judge_fallback_suggestions)
       /\ truthy overall_complete = false.
Proof.
  split; [right; right; left; reflexivity|].
  apply (generator_follows_judge Sample.repr_unused Sample.backend_down
           Sample.name_schema Sample.greeted "I would rather not say"
           (InterviewSession.history Sample.greeted
            ++ [user_message "I would rather not say"])
           Sample.name_schema (JObj []) (JObj [("name", JInt 0)])
           (JStr judge_fallback_suggestions)).
  right; right; left; reflexivity.
Defined.

(** ** Failures of the backend and of its replies *)



(** When the extractor's backend replies with a value that is no dict, the
    handler, in the extraction branch, raises an [AttributeError] out of the
    judge: the question generator is not awaited, nothing is committed, and
    the next request continues from the session as it was. *)
Theorem extraction_must_be_a_dict repr_other be questions_schema
    (s : InterviewSession.t) (msg : string) (v : json) :
  InterviewSession.is_completed s = false ->
  InterviewSession.awaiting_confirmation s
  && (PyStr.any_in confirm_phrases (PyStr.strip (PyStr.lower msg))
      || PyStr.any_in reject_phrases (PyStr.strip (PyStr.lower msg))) = false ->
  1 <= List.length (InterviewSession.history s) ->
  extract_reply be (InterviewSession.history s) questions_schema = Some v ->
  is_dict v = false ->
  result (chat_with_session repr_other be questions_schema s msg)
  = Raised AttributeError
  /\ calls (chat_with_session repr_other be questions_schema s msg)
     = [extract_call (InterviewSession.history s) questions_schema;
        judge_call v questions_schema]
  /\ committed (chat_with_session repr_other be questions_schema s msg)
     = false
  /\ stored s (chat_with_session repr_other be questions_schema s msg) = s.
Proof.
  intros Hopen Hbranch Hlen Hreply Hshape.
  assert (Hhist : InterviewSession.history s <> []).
  { intros E. rewrite E in Hlen. simpl in Hlen. lia. }
  destruct (andb_orb_false _ _ _ Hbranch) as [Hc Hr].
  unfold stored, chat_with_session. rewrite Hopen. cbv zeta.
  cbn [InterviewSession.awaiting_confirmation
       InterviewSession.set_conversation_history].
  rewrite Hc, Hr, (length_one_more_false _ _ Hhist), removelast_last.
  unfold extract_data_from_conversation. rewrite Hreply.
  destruct v; try discriminate Hshape; repeat split; reflexivity.
Qed.

Lemma extraction_must_be_a_dict_witness :
  InterviewSession.is_completed Sample.greeted = false
  /\ 1 <= List.length (InterviewSession.history Sample.greeted)
  /\ extract_reply Sample.backend_list
       (InterviewSession.history Sample.greeted) Sample.name_schema
     = Some (JArr [JStr "John Smith"])
  /\ is_dict (JArr [JStr "John Smith"]) = false
  /\ result (chat_with_session Sample.repr_unused Sample.backend_list
               Sample.name_schema Sample.greeted "I am John Smith")
     = Raised AttributeError.
Proof.
  split; [reflexivity|]. split; [simpl; lia|].
  split; [reflexivity|]. split; [reflexivity|].
  apply (extraction_must_be_a_dict Sample.repr_unused Sample.backend_list
           Sample.name_schema Sample.greeted "I am John Smith"
           (JArr [JStr "John Smith"]));
    [reflexivity | reflexivity | simpl; lia | reflexivity | reflexivity].
Defined.

(** ** The response evaluator *)

Lemma sufficient_is_not_insufficient (verdict : string) :
  prefix "SUFFICIENT" verdict = true ->
  prefix "INSUFFICIENT" verdict = false.
Proof.
  intros H. apply prefix_iff_append in H. destruct H as [post ->].
  reflexivity.
Qed.

(** When the backend replies, the answer is insufficient exactly when the
    stripped reply starts with "INSUFFICIENT"; the reason is then the stripped
    text after the first colon, possibly empty, or a fixed sentence when the
    reply has no colon.  Every other reply, recognised or not, counts as
    sufficient, with no reason. *)
Theorem verdict_parsing be (question answer field_type content : string) :
  evaluate_reply be question answer field_type = Some content ->
  evaluate_response be question answer field_type
  = if prefix "INSUFFICIENT" (PyStr.strip content)
    then (false,
          Some match after_colon (PyStr.strip content) with
               | Some reason => PyStr.strip reason
               | None => "Please provide more detail."
               end)
    else (true, None).
Proof.
  intros H. unfold evaluate_response. rewrite H.
  destruct (prefix "SUFFICIENT" (PyStr.strip content)) eqn:Hs.
  - now rewrite (sufficient_is_not_insufficient _ Hs).
  - destruct (prefix "INSUFFICIENT" (PyStr.strip content)); reflexivity.
Qed.

Lemma verdict_parsing_witness :
  evaluate_reply Sample.backend_list "Your name?" "J" "string"
  = Some "INSUFFICIENT: too short "
  /\ evaluate_response Sample.backend_list "Your name?" "J" "string"
     = (false, Some "too short").
Proof.
  split; [reflexivity|].
  rewrite (verdict_parsing Sample.backend_list "Your name?" "J" "string"
             "INSUFFICIENT: too short " eq_refl).
  reflexivity.
Defined.

(** Whether the backend replies or fails, an answer judged insufficient
    always comes with a reason. *)
Theorem insufficient_has_reason be (question answer field_type : string) :
  fst (evaluate_response be question answer field_type) = false ->
  exists reason,
    snd (evaluate_response be question answer field_type) = Some reason.
Proof.
  unfold evaluate_response, _fallback_evaluation.
  destruct (evaluate_reply be question answer field_type) as [content|].
  - destruct (prefix "SUFFICIENT" _); [discriminate|].
    destruct (prefix "INSUFFICIENT" _); [|discriminate].
    intros _. eexists. reflexivity.
  - destruct (String.eqb field_type "yes/no").
    + intros _. eexists. reflexivity.
    + destruct (Nat.ltb _ 10); [|discriminate].
      intros _. eexists. reflexivity.
Qed.

Lemma insufficient_has_reason_witness :
  fst (evaluate_response Sample.backend_down "Your name?" "J" "string")
  = false
  /\ exists reason,
       snd (evaluate_response Sample.backend_down "Your name?" "J" "string")
       = Some reason.
Proof.
  split; [reflexivity|].
  apply (insufficient_has_reason Sample.backend_down "Your name?" "J"
           "string").
  reflexivity.
Defined.

(** ** The question generator's context *)

(** The slice [conversation_history[-6:]] sent to the backend is the end of
    the conversation: the whole of it when it has at most six turns, its last
    six turns otherwise. *)
Theorem last_six_is_the_tail (conversation_history : list Message) :
  (exists older, conversation_history = older ++ last_six conversation_history)
  /\ List.length (last_six conversation_history)
     = Nat.min 6 (List.length conversation_history)
  /\ (List.length conversation_history <= 6 ->
      last_six conversation_history = conversation_history).
Proof.
  unfold last_six. split; [|split].
  - exists (firstn (List.length conversation_history - 6) conversation_history).
    symmetry. apply firstn_skipn.
  - rewrite length_skipn. lia.
  - intros H. replace (List.length conversation_history - 6) with 0 by lia.
    reflexivity.
Qed.

(** ** The ready vocabulary *)

Lemma contains_longer (short long pre post text : string) :
  long = (pre ++ short ++ post)%string ->
  PyStr.contains long text = true -> PyStr.contains short text = true.
Proof.
  intros -> H. apply contains_iff_infix in H. destruct H as [a [b ->]].
  apply contains_iff_infix. exists (a ++ pre)%string, (post ++ b)%string.
  now rewrite !string_app_assoc.
Qed.

(** Because phrases are matched as substrings, the three ready phrases that
    contain "start" add nothing: the ready test is the test for the five
    phrases "ready", "ok", "yes", "start" and "begin". *)
Theorem ready_phrases_redundant (text : string) :
  PyStr.any_in ready_phrases text
  = PyStr.any_in ["ready"; "ok"; "yes"; "start"; "begin"] text.
Proof.
  unfold PyStr.any_in, ready_phrases. cbn [existsb].
  pose proof (contains_longer "start" "lets start" "lets " "" text eq_refl)
    as H1.
  pose proof (contains_longer "start" "let's start" "let's " "" text eq_refl)
    as H2.
  pose proof (contains_longer "start" "ok. lets start" "ok. lets " "" text
                eq_refl) as H3.
  destruct (PyStr.contains "ready" text), (PyStr.contains "ok" text),
           (PyStr.contains "yes" text), (PyStr.contains "start" text),
           (PyStr.contains "lets start" text),
           (PyStr.contains "let's start" text),
           (PyStr.contains "ok. lets start" text),
           (PyStr.contains "begin" text);
    try reflexivity;
    first [ discriminate (H1 eq_refl) | discriminate (H2 eq_refl)
          | discriminate (H3 eq_refl) ].
Qed.

(** ** Status of a template without questions *)

(** For a template whose schema is null or empty the status is computed
    without any division: whatever the session's question index, the total
    is 0 and the progress is 0 percent. *)
Theorem status_without_questions templates (s : InterviewSession.t)
    (t : InterviewTemplate.t) :
  get_template templates (InterviewSession.template_id s) = Some t ->
  InterviewTemplate.questions_schema t = None
  \/ InterviewTemplate.questions_schema t = Some [] ->
  get_session_status templates s
  = Some {| session_id := InterviewSession.id s;
            current_question :=
              (InterviewSession.current_question_index s + 1)%Z;
            total_questions := 0;
            is_completed := InterviewSession.is_completed s;
            progress_percentage := 0 |}.
Proof.
  unfold get_template, get_session_status. intros -> [-> | ->]; reflexivity.
Qed.

Lemma status_without_questions_witness :
  get_session_status [InterviewTemplate.mk 4 None true]
    (InterviewSession.mk 9 4 None None 7 false false None JNull)
  = Some {| session_id := 9; current_question := 8; total_questions := 0;
            is_completed := false; progress_percentage := 0 |}.
Proof.
  apply (status_without_questions [InterviewTemplate.mk 4 None true]
           (InterviewSession.mk 9 4 None None 7 false false None JNull)
           (InterviewTemplate.mk 4 None true) eq_refl (or_introl eq_refl)).
Defined.

(** ** The fallback schema *)

Lemma space_is_not_a_letter (c : ascii) :
  PyStr.isspace c = true -> PyStr.lower_char c = c.
Proof.
  destruct c as [[] [] [] [] [] [] [] []]; intros H;
    first [reflexivity | discriminate H].
Qed.

Lemma lower_app (a b : string) :
  PyStr.lower (a ++ b) = (PyStr.lower a ++ PyStr.lower b)%string.
Proof. induction a as [|c a IH]; simpl; [reflexivity | now rewrite IH]. Qed.

Lemma split_from_word (w acc rest : string) :
  forallb (fun c => negb (PyStr.isspace c)) (list_ascii_of_string w) = true ->
  split_from acc (w ++ rest) = split_from (acc ++ w) rest.
Proof.
  revert acc. induction w as [|c w IH]; intros acc H; simpl in *.
  - now rewrite string_app_nil_r.
  - apply andb_prop in H. destruct H as [Hc Hw].
    destruct (PyStr.isspace c); [discriminate Hc|].
    rewrite IH by exact Hw. now rewrite string_app_assoc.
Qed.

Lemma split_from_after_space (pre acc rest : string) (sp : ascii) :
  PyStr.isspace sp = true ->
  exists ws,
    split_from acc (pre ++ String sp rest) = ws ++ split_from EmptyString rest.
Proof.
  intros Hsp. revert acc. induction pre as [|c pre IH]; intros acc; simpl.
  - rewrite Hsp. destruct acc.
    + exists []. reflexivity.
    + eexists [_]. reflexivity.
  - destruct (PyStr.isspace c).
    + destruct (IH EmptyString) as [ws Hws]. rewrite Hws.
      destruct acc.
      * exists ws. reflexivity.
      * eexists (_ :: ws). reflexivity.
    + apply IH.
Qed.

Lemma split_from_substring (s acc x : string) :
  In x (split_from acc s) ->
  exists pre post, (acc ++ s)%string = (pre ++ x ++ post)%string.
Proof.
  revert acc. induction s as [|c s IH]; intros acc; simpl.
  - destruct acc; [intros []|]. intros [<-|[]].
    exists EmptyString, EmptyString. now rewrite !string_app_nil_r.
  - destruct (PyStr.isspace c).
    + destruct acc as [|a acc'].
      * intros H. destruct (IH _ H) as [pre [post E]]. simpl in E.
        exists (String c pre), post. simpl. now rewrite E.
      * intros [<-|H].
        -- exists EmptyString, (String c s). reflexivity.
        -- destruct (IH _ H) as [pre [post E]]. simpl in E.
           exists (String a acc' ++ String c pre)%string, post.
           rewrite string_app_assoc. simpl. now rewrite E.
    + intros H. destruct (IH _ H) as [pre [post E]].
      exists pre, post. rewrite <- E, string_app_assoc. reflexivity.
Qed.

Lemma word_is_split (pre w post : string) :
  w <> EmptyString ->
  forallb (fun c => negb (PyStr.isspace c)) (list_ascii_of_string w) = true ->
  pre = EmptyString
  \/ (exists p sp, pre = (p ++ String sp EmptyString)%string
                   /\ PyStr.isspace sp = true) ->
  post = EmptyString
  \/ (exists sp p, post = String sp p /\ PyStr.isspace sp = true) ->
  In w (split (pre ++ w ++ post)).
Proof.
  intros Hne Hw Hpre Hpost.
  assert (Hhere : In w (split_from EmptyString (w ++ post))).
  { rewrite split_from_word by exact Hw. simpl.
    destruct Hpost as [-> | [sp [p [-> Hsp]]]]; simpl.
    - destruct w; [contradiction | now left].
    - rewrite Hsp. destruct w; [contradiction | now left]. }
  unfold split. destruct Hpre as [-> | [p [sp [-> Hsp]]]].
  - exact Hhere.
  - rewrite string_app_assoc. simpl.
    destruct (split_from_after_space p EmptyString (w ++ post) sp Hsp)
      as [ws ->].
    apply in_or_app. now right.
Qed.

Lemma any_word_intro (keywords words : list string) (kw : string) :
  In kw keywords -> In kw words -> any_word keywords words = true.
Proof.
  intros Hk Hw. unfold any_word. apply existsb_exists. exists kw.
  split; [exact Hk|]. apply existsb_exists. exists kw.
  split; [exact Hw | apply String.eqb_refl].
Qed.

Lemma any_word_substring (keywords : list string) (text : string) :
  any_word keywords (split text) = true ->
  PyStr.any_in keywords text = true.
Proof.
  unfold any_word. intros H. apply existsb_exists in H.
  destruct H as [kw [Hk H]]. apply existsb_exists in H.
  destruct H as [w [Hw E]]. apply String.eqb_eq in E. subst w.
  destruct (split_from_substring _ _ _ Hw) as [pre [post Hs]].
  apply any_in_iff. exists kw, pre, post. split; [exact Hk | exact Hs].
Qed.

(** Whatever the goals, the fallback schema is a well-formed schema: it reads
    as a schema of prompts and types, has one of three fixed lists of field
    names, which are distinct, and only the types "story" and "string". *)
Theorem fallback_schema_is_well_formed (goals : string) :
  exists schema : Schema,
    schema_of (_fallback_schema goals) = Some schema
    /\ In (map fst schema)
          [["issue_description"; "steps_taken"; "outcome"];
           ["topic"; "key_points"; "audience"];
           ["main_topic"; "key_details"]]
    /\ NoDup (map fst schema)
    /\ forall field_name info,
         In (field_name, info) schema ->
         type info = "story" \/ type info = "string".
Proof.
  unfold _fallback_schema.
  destruct (any_word _ _); [|destruct (any_word _ _)];
    (eexists; split; [reflexivity|]; split; [simpl; tauto|]; split;
     [ repeat constructor; simpl; intuition discriminate
     | intros field_name info Hin; simpl in Hin;
       repeat (destruct Hin as [Hin|Hin];
               [injection Hin as <- <-; simpl; tauto|]);
       contradiction ]).
Qed.

(** Keywords are matched as whole words, in any letter case, and the bug
    keywords are tried first: when one of "bug", "fix", "software", "error"
    stands in the goals between white space or the ends of the text, the bug
    schema is chosen, whatever else the goals contain. *)
Theorem bug_keyword_as_a_word (goals pre w post : string) :
  goals = (pre ++ w ++ post)%string ->
  In (PyStr.lower w) ["bug"; "fix"; "software"; "error"] ->
  pre = EmptyString
  \/ (exists p sp, pre = (p ++ String sp EmptyString)%string
                   /\ PyStr.isspace sp = true) ->
  post = EmptyString
  \/ (exists sp p, post = String sp p /\ PyStr.isspace sp = true) ->
  _fallback_schema goals = bug_schema.
Proof.
  intros -> Hkw Hpre Hpost. unfold _fallback_schema. cbv zeta.
  rewrite !lower_app.
  rewrite (any_word_intro _ _ (PyStr.lower w) Hkw); [reflexivity|].
  apply word_is_split.
  - simpl in Hkw. intros E. rewrite E in Hkw. intuition discriminate.
  - simpl in Hkw.
    destruct Hkw as [<-|[<-|[<-|[<-|[]]]]]; reflexivity.
  - destruct Hpre as [-> | [p [sp [-> Hsp]]]]; [now left | right].
    exists (PyStr.lower p), sp. split; [|exact Hsp].
    rewrite lower_app. simpl. now rewrite (space_is_not_a_letter sp Hsp).
  - destruct Hpost as [-> | [sp [p [-> Hsp]]]]; [now left | right].
    exists sp, (PyStr.lower p). split; [|exact Hsp].
    simpl. now rewrite (space_is_not_a_letter sp Hsp).
Qed.

Lemma bug_keyword_as_a_word_witness :
  _fallback_schema "Please  FIX	the guide" = bug_schema.
Proof.
  apply (bug_keyword_as_a_word "Please  FIX	the guide" "Please  " "FIX"
           "	the guide" eq_refl).
  - simpl. tauto.
  - right. exists "Please ", " "%char. split; reflexivity.
  - right. exists "009"%char, "the guide". split; reflexivity.
Defined.

(** When the lower-cased goals contain none of the seven keywords, not even
    inside a word, the generic schema is chosen, and its first prompt quotes
    the goals as they were given. *)
Theorem no_keyword_gives_generic_schema (goals : string) :
  PyStr.any_in ["bug"; "fix"; "software"; "error";
                "document"; "guide"; "process"] (PyStr.lower goals) = false ->
  _fallback_schema goals
  = [("main_topic",
      field ("Can you tell me more about " ++ goals ++ "?")%string "story");
     ("key_details", field "What are the most important details?" "story")].
Proof.
  intros H. unfold _fallback_schema. cbv zeta.
  destruct (any_word ["bug"; "fix"; "software"; "error"] _) eqn:H1.
  { apply any_word_substring in H1. unfold PyStr.any_in in *.
    cbn [existsb] in *.
    repeat match goal with
           | H : context [PyStr.contains ?k ?t] |- _ =>
               destruct (PyStr.contains k t)
           end; discriminate. }
  destruct (any_word ["document"; "guide"; "process"] _) eqn:H2.
  { apply any_word_substring in H2. unfold PyStr.any_in in *.
    cbn [existsb] in *.
    repeat match goal with
           | H : context [PyStr.contains ?k ?t] |- _ =>
               destruct (PyStr.contains k t)
           end; discriminate. }
  reflexivity.
Qed.

Lemma no_keyword_gives_generic_schema_witness :
  map fst (_fallback_schema "General interview questions")
  = ["main_topic"; "key_details"].
Proof.
  rewrite (no_keyword_gives_generic_schema "General interview questions"
             eq_refl).
  reflexivity.
Defined.

(** ** Generating a template from goals *)

Lemma string_length_app (a b : string) :
  String.length (a ++ b) = String.length a + String.length b.
Proof. induction a as [|c a IH]; simpl; [reflexivity | now rewrite IH]. Qed.

Lemma length_substring_0 (n : nat) (s : string) :
  String.length (substring 0 n s) <= n.
Proof.
  revert s. induction n as [|n IH]; intros s; destruct s as [|c s]; simpl;
    try lia.
  specialize (IH s). lia.
Qed.

(** With goals that are a non-empty string, a failing backend is no obstacle:
    the template is created from the fallback schema of the goals, described
    by the goals in full and named after their first 50 characters, so that
    the name has at most 74 characters. *)
Theorem generation_survives_backend_failure repr_other questions_reply
    (request : Dict) (g : string) :
  get "goals" request = Some (JStr g) ->
  truthy (JStr g) = true ->
  questions_reply (JStr g) = None ->
  generate_template_from_goals repr_other questions_reply request
  = Created
      {| name := ("Generated Template - " ++ substring 0 50 g ++ "...")%string;
         description :=
           Some ("Auto-generated template based on: " ++ g)%string;
         questions_schema := _fallback_schema g |}
  /\ String.length ("Generated Template - " ++ substring 0 50 g ++ "...")
     <= 74.
Proof.
  intros Hget Htruthy Hfail. split.
  - unfold generate_template_from_goals, get_default,
           generate_questions_from_goals.
    rewrite Hget. cbv zeta. rewrite Htruthy, Hfail. reflexivity.
  - rewrite !string_length_app. pose proof (length_substring_0 50 g).
    simpl String.length. lia.
Qed.

Lemma generation_survives_backend_failure_witness :
  generate_template_from_goals Sample.repr_unused (fun _ => None)
    [("goals", JStr "Document how we fix a bug")]
  = Created
      {| name := "Generated Template - Document how we fix a bug...";
         description :=
           Some "Auto-generated template based on: Document how we fix a bug";
         questions_schema := bug_schema |}.
Proof.
  apply (generation_survives_backend_failure Sample.repr_unused
           (fun _ => None) [("goals", JStr "Document how we fix a bug")]
           "Document how we fix a bug" eq_refl eq_refl eq_refl).
Defined.

(** With goals that are a non-empty string, a reply of the backend is taken
    as it is parsed: a dict becomes the schema of the created template
    without any look at its entries, and any other value ends in the 500. *)
Theorem generated_schema_is_unchecked repr_other questions_reply
    (request : Dict) (g : string) (v : json) :
  get "goals" request = Some (JStr g) ->
  truthy (JStr g) = true ->
  questions_reply (JStr g) = Some v ->
  generate_template_from_goals repr_other questions_reply request
  = match v with
    | JObj d =>
        Created
          {| name :=
               ("Generated Template - " ++ substring 0 50 g ++ "...")%string;
             description :=
               Some ("Auto-generated template based on: " ++ g)%string;
             questions_schema := d |}
    | _ => ServerError
    end.
Proof.
  intros Hget Htruthy Hreply.
  unfold generate_template_from_goals, get_default,
         generate_questions_from_goals.
  rewrite Hget. cbv zeta. rewrite Htruthy, Hreply.
  destruct v; reflexivity.
Qed.

Lemma generated_schema_is_unchecked_witness :
  generate_template_from_goals Sample.repr_unused
    (fun _ => Some (JObj [("name", JInt 3)]))
    [("goals", JStr "Names")]
  = Created
      {| name := "Generated Template - Names...";
         description := Some "Auto-generated template based on: Names";
         questions_schema := [("name", JInt 3)] |}
  /\ schema_of [("name", JInt 3)] = None.
Proof.
  split; [|reflexivity].
  apply (generated_schema_is_unchecked Sample.repr_unused
           (fun _ => Some (JObj [("name", JInt 3)]))
           [("goals", JStr "Names")] "Names" (JObj [("name", JInt 3)])
           eq_refl eq_refl eq_refl).
Defined.

(** The 400 is the answer exactly to goals that are missing or falsy (null,
    an empty string, [False], zero, an empty list or dict), whatever the
    backend would reply; goals that are truthy but neither a string nor a
    list end in the 500, again whatever the backend replies. *)
Theorem goals_are_validated repr_other questions_reply (request : Dict) :
  (generate_template_from_goals repr_other questions_reply request
   = BadRequest
   <-> truthy (get_default "goals" (JStr EmptyString) request) = false)
  /\ (get "goals" request = None ->
      generate_template_from_goals repr_other questions_reply request
      = BadRequest)
  /\ (forall goals,
        get "goals" request = Some goals ->
        truthy goals = true ->
        match goals with JStr _ | JArr _ => False | _ => True end ->
        generate_template_from_goals repr_other questions_reply request
        = ServerError).
Proof.
  unfold generate_template_from_goals, get_default. cbv zeta.
  split; [|split].
  - destruct (truthy match get "goals" request with
                     | Some v => v
                     | None => JStr EmptyString
                     end) eqn:Ht; simpl.
    + split; [|discriminate].
      destruct (generate_questions_from_goals _ _) as [q|]; [|discriminate].
      destruct (slice_50 _ _); [|discriminate].
      destruct q; discriminate.
    + split; reflexivity.
  - intros ->. reflexivity.
  - intros goals -> Ht Hshape. rewrite Ht. simpl.
    unfold generate_questions_from_goals.
    destruct goals; try contradiction;
      destruct (questions_reply _); reflexivity.
Qed.

(** ** Deleting a template *)

Lemma get_template_deactivate_same templates template_id t :
  get_template templates template_id = Some t ->
  get_template (deactivate template_id templates) template_id
  = Some (InterviewTemplate.mk (InterviewTemplate.id t)
                               (InterviewTemplate.questions_schema t) false).
Proof.
  unfold get_template.
  induction templates as [|a rest IH]; simpl; [discriminate|].
  destruct (InterviewTemplate.id a =? template_id)%Z eqn:E; simpl.
  - intros H. injection H as <-. now rewrite E.
  - rewrite E. exact IH.
Qed.

Lemma get_template_deactivate_other templates template_id other :
  other <> template_id ->
  get_template (deactivate template_id templates) other
  = get_template templates other.
Proof.
  intros Hne. unfold get_template.
  induction templates as [|a rest IH]; simpl; [reflexivity|].
  destruct (InterviewTemplate.id a =? template_id)%Z eqn:E; simpl.
  - apply Z.eqb_eq in E.
    assert (Ho : (InterviewTemplate.id a =? other)%Z = false)
      by (apply Z.eqb_neq; congruence).
    now rewrite Ho.
  - destruct (InterviewTemplate.id a =? other)%Z; [reflexivity | exact IH].
Qed.

Lemma deactivate_twice templates template_id :
  deactivate template_id (deactivate template_id templates)
  = deactivate template_id templates.
Proof.
  induction templates as [|a rest IH]; simpl; [reflexivity|].
  destruct (InterviewTemplate.id a =? template_id)%Z eqn:E; simpl;
    rewrite E; [reflexivity | now rewrite IH].
Qed.

(** Deleting a template is a soft delete: the row stays, with the same key
    and schema and with [is_active] false, and is still found by
    [get_template]; no other key is affected; and deleting it once more
    succeeds again and changes nothing. *)
Theorem delete_is_soft templates template_id templates' :
  delete_template templates template_id = Some templates' ->
  (exists t,
     get_template templates template_id = Some t
     /\ get_template templates' template_id
        = Some (InterviewTemplate.mk (InterviewTemplate.id t)
                  (InterviewTemplate.questions_schema t) false))
  /\ (forall other,
        other <> template_id ->
        get_template templates' other = get_template templates other)
  /\ delete_template templates' template_id = Some templates'.
Proof.
  unfold delete_template.
  destruct (get_template templates template_id) as [t|] eqn:Hget;
    [|discriminate].
  intros H. injection H as <-. split; [|split].
  - exists t. split; [reflexivity|].
    now apply get_template_deactivate_same.
  - intros other Hne. now apply get_template_deactivate_other.
  - rewrite (get_template_deactivate_same _ _ _ Hget), deactivate_twice.
    reflexivity.
Qed.

Lemma delete_is_soft_witness :
  delete_template Sample.templates 1
  = Some [InterviewTemplate.mk 1 (Some Sample.name_schema) false]
  /\ delete_template [InterviewTemplate.mk 1 (Some Sample.name_schema) false]
       1
     = Some [InterviewTemplate.mk 1 (Some Sample.name_schema) false].
Proof.
  split; [reflexivity|].
  apply (delete_is_soft Sample.templates 1
           [InterviewTemplate.mk 1 (Some Sample.name_schema) false] eq_refl).
Defined.

Lemma active_after_deactivate templates template_id row :
  NoDup (map InterviewTemplate.id templates) ->
  In row (filter InterviewTemplate.is_active
            (deactivate template_id templates))
  <-> In row (filter InterviewTemplate.is_active templates)
      /\ InterviewTemplate.id row <> template_id.
Proof.
  induction templates as [|a rest IH]; simpl; intros Hnd.
  - tauto.
  - inversion Hnd as [|x l Hnotin Hnd']; subst.
    destruct (InterviewTemplate.id a =? template_id)%Z eqn:E.
    + apply Z.eqb_eq in E. simpl.
      assert (Hrest : forall r, In r rest ->
                                InterviewTemplate.id r <> template_id).
      { intros r Hr Hid. apply Hnotin. rewrite E, <- Hid.
        now apply in_map. }
      rewrite !filter_In. split.
      * intros [Hr Ha]. split; [|now apply Hrest].
        destruct (InterviewTemplate.is_active a); [|apply filter_In; auto].
        right. apply filter_In. auto.
      * intros [Hin Hid].
        destruct (InterviewTemplate.is_active a) eqn:Ha.
        -- destruct Hin as [<-|Hin]; [congruence|].
           now apply filter_In in Hin.
        -- now apply filter_In in Hin.
    + simpl. destruct (InterviewTemplate.is_active a) eqn:Ha; simpl.
      * rewrite (IH Hnd'). apply Z.eqb_neq in E. split.
        -- intros [<-|[Hin Hid]]; [split; [now left | exact E] | tauto].
        -- intros [[<-|Hin] Hid]; [now left | right; tauto].
      * apply (IH Hnd').
Qed.

Lemma no_active_after_deactivate templates template_id :
  NoDup (map InterviewTemplate.id templates) ->
  find (fun t => (InterviewTemplate.id t =? template_id)%Z
                 && InterviewTemplate.is_active t)
       (deactivate template_id templates) = None.
Proof.
  intros Hnd.
  destruct (find _ (deactivate template_id templates)) as [t|] eqn:Hf;
    [|reflexivity].
  apply find_some in Hf. destruct Hf as [Hin Ht].
  apply andb_prop in Ht. destruct Ht as [Hid Hact].
  apply Z.eqb_eq in Hid.
  assert (H : In t (filter InterviewTemplate.is_active
                      (deactivate template_id templates)))
    by (apply filter_In; auto).
  apply (active_after_deactivate _ _ _ Hnd) in H. tauto.
Qed.

(** With keys that are unique, a deleted template is closed to new
    interviews: the lists of templates, the administrator's and the
    interviewee's alike, are the former list without it, and
    [start_interview] answers its key with the 404. *)
Theorem deleted_template_is_closed templates template_id templates' :
  NoDup (map InterviewTemplate.id templates) ->
  delete_template templates template_id = Some templates' ->
  (forall row,
     In row (get_templates templates')
     <-> In row (get_templates templates)
         /\ InterviewTemplate.id row <> template_id)
  /\ get_available_templates templates' = get_templates templates'
  /\ forall new_id, start_interview templates' new_id template_id = None.
Proof.
  intros Hnd. unfold delete_template.
  destruct (get_template templates template_id); [|discriminate].
  intros H. injection H as <-. split; [|split].
  - intros row. now apply active_after_deactivate.
  - reflexivity.
  - intros new_id. unfold start_interview.
    now rewrite no_active_after_deactivate.
Qed.

Lemma deleted_template_is_closed_witness :
  NoDup (map InterviewTemplate.id Sample.templates)
  /\ delete_template Sample.templates 1
     = Some [InterviewTemplate.mk 1 (Some Sample.name_schema) false]
  /\ start_interview [InterviewTemplate.mk 1 (Some Sample.name_schema) false]
       2 1
     = None.
Proof.
  assert (Hnd : NoDup (map InterviewTemplate.id Sample.templates)).
  { simpl. constructor; [simpl; tauto | constructor]. }
  split; [exact Hnd|]. split; [reflexivity|].
  apply (deleted_template_is_closed Sample.templates 1
           [InterviewTemplate.mk 1 (Some Sample.name_schema) false]
           Hnd eq_refl).
Defined.

Lemma schema_after_deactivate templates template_id other :
  option_map InterviewTemplate.questions_schema
    (get_template (deactivate template_id templates) other)
  = option_map InterviewTemplate.questions_schema
      (get_template templates other).
Proof.
  destruct (Z.eq_dec other template_id) as [->|Hne].
  - destruct (get_template templates template_id) as [t|] eqn:Hget.
    + now rewrite (get_template_deactivate_same _ _ _ Hget).
    + assert (Hsame : deactivate template_id templates = templates).
      { unfold get_template in Hget.
        induction templates as [|a rest IH]; simpl in *; [reflexivity|].
        destruct (InterviewTemplate.id a =? template_id)%Z; [discriminate|].
        now rewrite IH. }
      now rewrite Hsame, Hget.
  - now rewrite get_template_deactivate_other.
Qed.

(** Deleting a template does not disturb the sessions started from it: for
    every session [get_session_status] answers after the deletion what it
    answered before. *)
Theorem delete_keeps_status templates template_id templates'
    (s : InterviewSession.t) :
  delete_template templates template_id = Some templates' ->
  get_session_status templates' s = get_session_status templates s.
Proof.
  unfold delete_template.
  destruct (get_template templates template_id) as [found|]; [|discriminate].
  intros H. injection H as <-. clear found.
  pose proof (schema_after_deactivate templates template_id
                (InterviewSession.template_id s)) as Hs.
  unfold get_template in Hs. unfold get_session_status.
  destruct (find _ (deactivate template_id templates)) as [t'|];
    destruct (find _ templates) as [t|]; simpl in Hs;
    try discriminate Hs; [|reflexivity].
  injection Hs as ->. reflexivity.
Qed.

Lemma delete_keeps_status_witness :
  get_session_status [InterviewTemplate.mk 1 (Some Sample.name_schema) false]
    Sample.awaiting
  = get_session_status Sample.templates Sample.awaiting.
Proof.
  apply (delete_keeps_status Sample.templates 1
           [InterviewTemplate.mk 1 (Some Sample.name_schema) false]
           Sample.awaiting eq_refl).
Defined.
